(** * Elastic Beanstalk MCP server: a shallow embedding of [server.py]

    The module [awslabs.elasticbeanstalk_mcp_server.server] exposes four
    describe-style tools over one client-construction helper, and an entry
    point that parses one command-line flag.  Everything the module does is
    an effect on the outside world: it reads [os.environ], it asks boto3 for
    a session and a client, it sends requests to AWS, it writes log lines and
    it reports validation errors to the tool context.  The embedding makes
    these effects explicit: a computation is a function from the trace of
    effects performed so far to an outcome (a returned value or a raised
    exception) and the extended trace.  What boto3 and AWS answer is not
    decided by the module; it is a parameter (an oracle) of the embedding. *)

From Stdlib Require Import ZArith String Ascii List.
From stdpp Require Import base option list strings gmap fin_maps.

Open Scope string_scope.
Set Warnings "-register-all".

(** ** Python values *)

(** The values that flow through request parameters and responses: [None],
    booleans, integers, strings, lists and (nested) dictionaries. *)
Inductive pyval : Type :=
| PNone
| PBool (b : bool)
| PInt (n : Z)
| PStr (s : string)
| PList (l : list pyval)
| PDict (d : list (string * pyval)).

(** A keyword-argument dictionary, a response and a tool result are all
    dictionaries with string keys. *)
Abbreviation pydict := (gmap string pyval).

(** Python truth-value testing, as used by [if x:] and [x or y]. *)
Class Truthy (A : Type) := truthy : A -> bool.

#[global] Instance truthy_string : Truthy string :=
  fun s => match s with EmptyString => false | String _ _ => true end.
#[global] Instance truthy_list {A} : Truthy (list A) :=
  fun l => match l with [] => false | _ :: _ => true end.
#[global] Instance truthy_Z : Truthy Z :=
  fun n => negb (n =? 0)%Z.
#[global] Instance truthy_bool : Truthy bool :=
  fun b => b.
(** An argument whose declared default is [None]: [None] is falsy, any
    other value has the truth value of its type. *)
#[global] Instance truthy_option {A} `{Truthy A} : Truthy (option A) :=
  fun o => match o with None => false | Some a => truthy a end.

(** [dict.get(key, default)]. *)
Definition dict_get (d : pydict) (key : string) (dflt : pyval) : pyval :=
  default dflt (d !! key).

(** ** Exceptions *)

(** Whatever boto3 or botocore raises: a class name and a text. *)
Record raw_error : Type := RawError { exc_class : string; exc_text : string }.

(** The exceptions that can travel through the module: its own
    [errors.ClientError], or an exception raised by the SDK. *)
Inductive exn : Type :=
| ClientError (message : string)
| SdkError (e : raw_error).

(** [str(e)]. *)
Definition str (e : exn) : string :=
  match e with
  | ClientError message => message
  | SdkError e => exc_text e
  end.

Definition is_ClientError (e : exn) : bool :=
  match e with ClientError _ => true | SdkError _ => false end.

(** ** Effects *)

(** One entry of the trace, in the order the effects happen. *)
Inductive event : Type :=
| SessionCreated (region : string)
    (* boto3.Session(region_name=region) *)
| ClientCreated (service : string) (user_agent_extra : string)
    (* session.client(service, config=Config(user_agent_extra=...)) *)
| ApiCall (region : string) (operation : string) (params : pydict)
    (* client.<operation>(...) with keyword arguments params: a call of
       an AWS API through the SDK *)
| LogError (line : string)
    (* logger.error(line) *)
| CtxError (message : string).
    (* await ctx.error(message) *)

Definition is_ApiCall (ev : event) : bool :=
  match ev with ApiCall _ _ _ => true | _ => false end.

(** The requests sent to AWS, in order. *)
Definition api_calls (tr : list event) : list event := List.filter is_ApiCall tr.

(** The behaviour of boto3 and of AWS.  Creating a session or a client may
    raise without any request being sent; a request is answered by a
    response dictionary or by an exception, and the answer may depend on
    everything that happened before. *)
Record SDK : Type := {
  new_session : string -> option raw_error;
  new_client : string -> string -> string -> option raw_error;
  answer : list event -> string -> string -> pydict -> raw_error + pydict
}.

Inductive outcome (A : Type) : Type :=
| Returned (a : A)
| Raised (e : exn).
Arguments Returned {A} a.
Arguments Raised {A} e.

(** A computation: from the trace so far to an outcome and the new trace. *)
Definition M (A : Type) : Type := list event -> outcome A * list event.

Definition ret {A} (a : A) : M A := fun tr => (Returned a, tr).
Definition raise {A} (e : exn) : M A := fun tr => (Raised e, tr).
Definition bind {A B} (m : M A) (k : A -> M B) : M B :=
  fun tr => match m tr with
            | (Returned a, tr') => k a tr'
            | (Raised e, tr') => (Raised e, tr')
            end.
Definition emit (ev : event) : M unit := fun tr => (Returned tt, (tr ++ [ev])%list).

(** [try: body / except Exception as e: handler(e)]. *)
Definition try_except {A} (body : M A) (handler : exn -> M A) : M A :=
  fun tr => match body tr with
            | (Returned a, tr') => (Returned a, tr')
            | (Raised e, tr') => handler e tr'
            end.

Notation "'let*' x ':=' m 'in' k" := (bind m (fun x => k))
  (at level 10, x name, m at level 100, k at level 200).
Notation "'do' m 'then' k" := (bind m (fun _ => k))
  (at level 10, m at level 100, k at level 200).

(** Running a computation from the empty trace. *)
Definition run {A} (m : M A) : outcome A * list event := m [].
Definition result {A} (m : M A) : outcome A := fst (run m).
Definition trace {A} (m : M A) : list event := snd (run m).

(** A client object remembers the region of the session that made it. *)
Record Client : Type := { client_region : string }.

(** ** The command line *)

(** The entry point builds an [argparse.ArgumentParser] and lets it parse
    the command line.  [argparse] belongs to the Python standard library,
    not to the module; what follows is the part of its parsing algorithm
    (as of CPython 3.11) that a parser without positional arguments and
    with one-valued options goes through.  Exit codes and messages are not
    kept: parsing either returns a namespace or leaves the process
    ([SystemExit], after printing the help or a usage error). *)
Module argparse.

(** An argument declared by [add_argument(option_string, type=...,
    default=..., help=...)]; it stores one value ([nargs=None]). *)
Record Argument : Type := {
  option_string : string;
  type : string -> pyval;
  default_value : pyval;
  help : string
}.

Record ArgumentParser : Type := {
  description : string;
  arguments : list Argument
}.

Definition new_parser (description : string) : ArgumentParser :=
  {| description := description; arguments := [] |}.

Definition add_argument (parser : ArgumentParser) (name : string)
    (type : string -> pyval) (default_value : pyval) (help : string)
  : ArgumentParser :=
  {| description := description parser;
     arguments := (arguments parser ++
       [{| option_string := name; type := type;
           default_value := default_value; help := help |}])%list |}.

(** What an option string stands for: the help that every parser has
    ([add_help=True]), or a declared argument. *)
Inductive Action : Type :=
| HelpAction
| StoreAction (a : Argument).

Definition option_string_actions (parser : ArgumentParser)
  : list (string * Action) :=
  ([("-h", HelpAction); ("--help", HelpAction)] ++
   List.map (fun a => (option_string a, StoreAction a)) (arguments parser))%list.

(** *** Strings *)

Fixpoint startswith (s prefix : string) : bool :=
  match prefix, s with
  | EmptyString, _ => true
  | String c prefix', String d s' => Ascii.eqb c d && startswith s' prefix'
  | String _ _, EmptyString => false
  end.

(** [s.split(sep, 1)] for a one-character [sep] that occurs in [s]. *)
Fixpoint split_at (sep : ascii) (s : string) : option (string * string) :=
  match s with
  | EmptyString => None
  | String c s' =>
      if Ascii.eqb c sep then Some (EmptyString, s')
      else match split_at sep s' with
           | Some (before, after) => Some (String c before, after)
           | None => None
           end
  end.

(** *** Code points *)

(** A Python string is a sequence of code points.  The command line
    reaches the process as bytes, which Python decodes as UTF-8; a byte
    that is not part of a well-formed sequence becomes a lone surrogate
    (U+DC80 to U+DCFF), one per byte. *)
Definition continuation (b : N) : bool := ((128 <=? b) && (b <=? 191))%N.

Definition escaped (b : N) : N := (56320 + b)%N.

Fixpoint code_points (s : string) : list N :=
  match s with
  | EmptyString => []
  | String a1 s1 =>
      let b1 := N_of_ascii a1 in
      if (b1 <? 128)%N then b1 :: code_points s1 else
      match s1 with
      | EmptyString => [escaped b1]
      | String a2 s2 =>
          let b2 := N_of_ascii a2 in
          if ((194 <=? b1) && (b1 <=? 223))%N && continuation b2 then
            ((b1 - 192) * 64 + (b2 - 128))%N :: code_points s2
          else
          match s2 with
          | EmptyString => escaped b1 :: code_points s1
          | String a3 s3 =>
              let b3 := N_of_ascii a3 in
              if (((b1 =? 224) && (160 <=? b2) && (b2 <=? 191))
                  || ((225 <=? b1) && (b1 <=? 236) && continuation b2)
                  || ((b1 =? 237) && (128 <=? b2) && (b2 <=? 159))
                  || ((238 <=? b1) && (b1 <=? 239) && continuation b2))%N
                 && continuation b3 then
                ((b1 - 224) * 4096 + (b2 - 128) * 64 + (b3 - 128))%N
                :: code_points s3
              else
              match s3 with
              | EmptyString => escaped b1 :: code_points s1
              | String a4 s4 =>
                  let b4 := N_of_ascii a4 in
                  if (((b1 =? 240) && (144 <=? b2) && (b2 <=? 191))
                      || ((241 <=? b1) && (b1 <=? 243) && continuation b2)
                      || ((b1 =? 244) && (128 <=? b2) && (b2 <=? 143)))%N
                     && continuation b3 && continuation b4 then
                    ((b1 - 240) * 262144 + (b2 - 128) * 4096
                     + (b3 - 128) * 64 + (b4 - 128))%N
                    :: code_points s4
                  else escaped b1 :: code_points s1
              end
          end
      end
  end.

(** The code points that [\d] matches in a pattern for strings: the
    decimal digits of every script (Unicode 14.0, as CPython 3.11 has
    it), by ranges. *)
Definition decimal_digits : list (N * N) :=
  [(48, 57); (1632, 1641); (1776, 1785); (1984, 1993); (2406, 2415);
   (2534, 2543); (2662, 2671); (2790, 2799); (2918, 2927); (3046, 3055);
   (3174, 3183); (3302, 3311); (3430, 3439); (3558, 3567); (3664, 3673);
   (3792, 3801); (3872, 3881); (4160, 4169); (4240, 4249); (6112, 6121);
   (6160, 6169); (6470, 6479); (6608, 6617); (6784, 6793); (6800, 6809);
   (6992, 7001); (7088, 7097); (7232, 7241); (7248, 7257); (42528, 42537);
   (43216, 43225); (43264, 43273); (43472, 43481); (43504, 43513);
   (43600, 43609); (44016, 44025); (65296, 65305); (66720, 66729);
   (68912, 68921); (69734, 69743); (69872, 69881); (69942, 69951);
   (70096, 70105); (70384, 70393); (70736, 70745); (70864, 70873);
   (71248, 71257); (71360, 71369); (71472, 71481); (71904, 71913);
   (72016, 72025); (72784, 72793); (73040, 73049); (73120, 73129);
   (92768, 92777); (92864, 92873); (93008, 93017); (120782, 120831);
   (123200, 123209); (123632, 123641); (125264, 125273); (130032, 130041)]%N.

Definition is_digit (cp : N) : bool :=
  existsb (fun range => (fst range <=? cp)%N && (cp <=? snd range)%N)
          decimal_digits.

(** [\d*] against the whole string. *)
Definition all_digits (s : string) : bool :=
  forallb is_digit (code_points s).

(** [\d+] against the whole string. *)
Definition digits (s : string) : bool :=
  match s with EmptyString => false | String _ _ => all_digits s end.

(** The end-of-string anchor also matches before one final newline. *)
Fixpoint before_final_newline (s : string) : string :=
  match s with
  | String c EmptyString => if Ascii.eqb c "010" then EmptyString else s
  | String c s' => String c (before_final_newline s')
  | EmptyString => EmptyString
  end.

(** The parser's [_negative_number_matcher]: a minus sign followed by
    digits, or by optional digits, a dot and digits. *)
Definition negative_number (s : string) : bool :=
  match s with
  | String "-" body =>
      let body := before_final_newline body in
      digits body ||
      match split_at "." body with
      | Some (whole, fraction) => all_digits whole && digits fraction
      | None => false
      end
  | _ => false
  end.

Definition lookup_action (parser : ArgumentParser) (s : string)
  : option Action :=
  snd <$> List.find (fun entry => String.eqb (fst entry) s)
                    (option_string_actions parser).

(** *** Classifying one command-line string *)

(** An argument ([None] in the Python code), an option with the action
    it selects (no action when the parser knows no such option) and the
    value attached to it, or an option with several readings. *)
Inductive token : Type :=
| Arg
| Opt (action : option Action) (explicit_arg : option string)
| Ambiguous.

(** [_get_option_tuples]: the options that the string abbreviates. *)
Definition get_option_tuples (parser : ArgumentParser) (arg_string : string)
  : list (Action * option string) :=
  match arg_string with
  | String c (String d rest) =>
      if Ascii.eqb c "-" && Ascii.eqb d "-" then
        let '(option_prefix, explicit_arg) :=
          match split_at "=" arg_string with
          | Some (before, after) => (before, Some after)
          | None => (arg_string, None)
          end in
        omap (fun entry : string * Action =>
                if startswith (fst entry) option_prefix
                then Some (snd entry, explicit_arg) else None)
             (option_string_actions parser)
      else if Ascii.eqb c "-" then
        let short_option_prefix := String c (String d EmptyString) in
        let short_explicit_arg := rest in
        omap (fun entry : string * Action =>
                if String.eqb (fst entry) short_option_prefix
                then Some (snd entry, Some short_explicit_arg)
                else if startswith (fst entry) arg_string
                then Some (snd entry, None) else None)
             (option_string_actions parser)
      else []
  | _ => []
  end.

Definition contains (c : ascii) (s : string) : bool :=
  bool_decide (is_Some (split_at c s)).

(** [_parse_optional]. *)
Definition parse_optional (parser : ArgumentParser) (arg_string : string)
  : token :=
  match arg_string with
  | EmptyString => Arg
  | String c rest =>
      if negb (Ascii.eqb c "-") then Arg else
      match lookup_action parser arg_string with
      | Some action => Opt (Some action) None
      | None =>
          match rest with
          | EmptyString => Arg
          | _ =>
              let split :=
                match split_at "=" arg_string with
                | Some (before, after) =>
                    match lookup_action parser before with
                    | Some action => Some (action, after)
                    | None => None
                    end
                | None => None
                end in
              match split with
              | Some (action, explicit_arg) =>
                  Opt (Some action) (Some explicit_arg)
              | None =>
                  match get_option_tuples parser arg_string with
                  | _ :: _ :: _ => Ambiguous
                  | [(action, explicit_arg)] => Opt (Some action) explicit_arg
                  | [] =>
                      if negative_number arg_string then Arg
                      else if contains " " arg_string then Arg
                      else Opt None None
                  end
              end
          end
      end
  end.

(** *** Parsing *)

(** The attribute an option is stored under: the option string without
    its leading dashes, inner dashes turned into underscores. *)
Fixpoint strip_dashes (s : string) : string :=
  match s with
  | String "-" s' => strip_dashes s'
  | _ => s
  end.

Fixpoint dashes_to_underscores (s : string) : string :=
  match s with
  | EmptyString => EmptyString
  | String c s' =>
      String (if Ascii.eqb c "-" then "_"%char else c) (dashes_to_underscores s')
  end.

Definition dest (a : Argument) : string :=
  dashes_to_underscores (strip_dashes (option_string a)).

(** The namespace before parsing: every declared argument at its
    default. *)
Definition defaults (parser : ArgumentParser) : pydict :=
  foldr (fun a ns => <[dest a := default_value a]> ns) ∅ (arguments parser).

(** [_get_values] for one argument string: the separator [--] is struck
    from the strings before they are converted, so that a value that is
    the separator itself (it can only come attached, as in
    [--readonly=--]) leaves nothing to convert and the empty list is
    stored; any other string goes through [type]. *)
Definition get_values (a : Argument) (arg_string : string) : pyval :=
  if String.eqb arg_string "--" then PList [] else type a arg_string.

(** A string that can follow an option as its value: not the separator,
    and an argument. *)
Definition is_argument (parser : ArgumentParser) (arg_string : string) : bool :=
  negb (String.eqb arg_string "--") &&
  match parse_optional parser arg_string with
  | Arg => true
  | _ => false
  end.

(** The strings of the command line, from left to right.  A string that
    is an argument where none is expected, an option the parser does not
    know, an ambiguous abbreviation, the separator [--] (it and whatever
    follows it are left over, and the parser has no positional argument
    to give them to) and the help all end the process; an option takes
    the value attached to it, or else the next string, which must be an
    argument. *)
Fixpoint consume (parser : ArgumentParser) (namespace : pydict)
    (seen : list string) (arg_strings : list string)
  : option (pydict * list string) :=
  match arg_strings with
  | [] => Some (namespace, seen)
  | arg_string :: rest =>
      if String.eqb arg_string "--" then None else
      match parse_optional parser arg_string with
      | Arg | Ambiguous | Opt None _ | Opt (Some HelpAction) _ => None
      | Opt (Some (StoreAction a)) (Some explicit_arg) =>
          consume parser (<[dest a := get_values a explicit_arg]> namespace)
                  (dest a :: seen) rest
      | Opt (Some (StoreAction a)) None =>
          match rest with
          | value :: rest' =>
              if String.eqb value "--" then None else
              match parse_optional parser value with
              | Arg =>
                  consume parser (<[dest a := get_values a value]> namespace)
                          (dest a :: seen) rest'
              | _ => None
              end
          | [] => None
          end
      end
  end.

(** A default that is a string goes through [type] when its option did
    not occur. *)
Definition convert_defaults (parser : ArgumentParser) (seen : list string)
    (namespace : pydict) : pydict :=
  foldr (fun a ns =>
           match default_value a with
           | PStr s =>
               if bool_decide (dest a ∈ seen) then ns
               else <[dest a := type a s]> ns
           | _ => ns
           end)
        namespace (arguments parser).

(** [parser.parse_args(argv)]: the namespace, or [None] when the process
    exits instead. *)
Definition parse_args (parser : ArgumentParser) (argv : list string)
  : option pydict :=
  match consume parser (defaults parser) [] argv with
  | Some (namespace, seen) => Some (convert_defaults parser seen namespace)
  | None => None
  end.

End argparse.

(** [bool(s)] for a string: the [type=bool] of the entry point. *)
Definition py_bool (s : string) : pyval := PBool (truthy s).

(** ** The entry point *)

(** Modelled from the spec: the class [context.Context] is imported from a
    module that is not part of the sources at hand.  The specification says
    that the entry point's flag toggles a global read-only mode flag; the
    context is that flag, unset until [Context.initialize] is called. *)
Module Context.
Definition t : Type := option pyval.
Definition uninitialized : t := None.
Definition initialize (readonly_mode : pyval) (ctx : t) : t :=
  Some readonly_mode.
Definition readonly_mode (ctx : t) : option pyval := ctx.
End Context.

(** How [main] ends: [parse_args] leaves the process, reading
    [args.readonly] fails, or the server runs ([mcp.run()]) with the
    context as [main] initialized it. *)
Inductive main_result : Type :=
| SystemExit
| AttributeError (name : string)
| Serving (ctx : Context.t).

(** The parser as [main] sets it up. *)
Definition main_parser : argparse.ArgumentParser :=
  let parser := argparse.new_parser "AWS Elastic Beanstalk MCP Server" in
  argparse.add_argument parser "--readonly" py_bool (PBool false)
    "Run in read-only mode".

Definition main (argv : list string) : main_result :=
  let parser := main_parser in
  match argparse.parse_args parser argv with
  | None => SystemExit
  | Some args =>
      match args !! "readonly" with
      | None => AttributeError "readonly"
      | Some readonly =>
          (* Initialize the context *)
          let ctx := Context.initialize readonly Context.uninitialized in
          Serving ctx
      end
  end.

(** A command-line string that selects a declared option of the parser,
    by its name, by an abbreviation of it, or with a value attached. *)
Definition selects_option (parser : argparse.ArgumentParser) (arg_string : string)
  : bool :=
  match argparse.parse_optional parser arg_string with
  | argparse.Opt (Some (argparse.StoreAction _)) _ => true
  | _ => false
  end.

(** The flag is given when some string of the command line selects it. *)
Definition flag_given (argv : list string) : bool :=
  existsb (selects_option main_parser) argv.

(** ** Sample worlds *)

(** An SDK that hands out sessions and clients and answers every request
    with the same response. *)
Definition sdk_ok (response : pydict) : SDK := {|
  new_session := fun _ => None;
  new_client := fun _ _ _ => None;
  answer := fun _ _ _ _ => inr response
|}.

(** An SDK whose client creation rejects the region name, as botocore does
    for a name that is not of the form of a region. *)
Definition sdk_invalid_region : SDK := {|
  new_session := fun _ => None;
  new_client := fun region _ _ =>
    Some (RawError "InvalidRegionError"
            ("Provided region_name '" ++ region ++ "' doesn't match a supported format."));
  answer := fun _ _ _ _ => inr ∅
|}.

(** An SDK that hands out a client, lets the verification call pass and
    refuses every later request. *)
Definition sdk_throttled : SDK := {|
  new_session := fun _ => None;
  new_client := fun _ _ _ => None;
  answer := fun history _ _ _ =>
    if existsb is_ApiCall history
    then inl (RawError "ClientError" "An error occurred (Throttling): Rate exceeded")
    else inr ∅
|}.

(** A message table that gives every exception the same text. *)
Definition plain_text (e : exn) : string :=
  "An error occurred. Please check your input and try again.".

(** A response to [describe_environments] with one environment. *)
Definition sample_environments : pydict :=
  {["Environments" := PList [PDict [("EnvironmentName", PStr "prod")]]]}.

(** A response to [describe_applications] with two applications. *)
Definition sample_applications : pydict :=
  {["Applications" := PList [PDict [("ApplicationName", PStr "shop")];
                             PDict [("ApplicationName", PStr "blog")]]]}.

(** A response to [describe_events] with one event, a continuation token
    and the metadata that boto3 adds to every response. *)
Definition sample_events : pydict :=
  {["Events" := PList [PDict [("Message", PStr "Environment health is Ok")]];
    "NextToken" := PStr "page-2";
    "ResponseMetadata" := PDict [("HTTPStatusCode", PInt 200)]]}.

(** ** The module *)

Section Server.

(** [consts.DEFAULT_REGION] and [consts.USER_AGENT_EXTRA]: two string
    constants imported from a module that is not part of the sources at
    hand; every result below holds whatever their values are. *)
Variable DEFAULT_REGION : string.
Variable USER_AGENT_EXTRA : string.

(** The human-readable text that [errors.handle_aws_api_error] chooses
    for an exception (its table of messages is not part of the sources at
    hand). *)
Variable error_text : exn -> string.

(** [os.environ]. *)
Variable environ : gmap string string.

(** boto3 and AWS. *)
Variable sdk : SDK.

(** *** External calls *)

(** [environ.get(key, default)]. *)
Definition environ_get (key dflt : string) : string :=
  default dflt (environ !! key).

(** [boto3.Session(region_name=region)]; the session is identified by
    its region. *)
Definition boto3_Session (region : string) : M string :=
  do emit (SessionCreated region) then
  match new_session sdk region with
  | None => ret region
  | Some e => raise (SdkError e)
  end.

(** [session.client(service, config=Config(user_agent_extra=ua))]. *)
Definition session_client (session service ua : string) : M Client :=
  do emit (ClientCreated service ua) then
  match new_client sdk session service ua with
  | None => ret {| client_region := session |}
  | Some e => raise (SdkError e)
  end.

(** A method call on the client with keyword arguments [params]: the
    request is sent, then AWS answers or the SDK raises. *)
Definition invoke (client : Client) (operation : string) (params : pydict)
  : M pydict :=
  fun tr =>
    let tr' := (tr ++ [ApiCall (client_region client) operation params])%list in
    match answer sdk tr (client_region client) operation params with
    | inr response => (Returned response, tr')
    | inl e => (Raised (SdkError e), tr')
    end.

Definition logger_error (line : string) : M unit := emit (LogError line).
Definition ctx_error (message : string) : M unit := emit (CtxError message).

(** Modelled from the spec: [errors.handle_aws_api_error] is imported
    from a module that is not part of the sources at hand.  The
    specification says that exceptions are translated into one uniform
    client-error type carrying a human-readable message. *)
Definition handle_aws_api_error (e : exn) : exn :=
  ClientError (error_text e).

(** Modelled from the spec: the decorator [common.handle_exceptions] is
    imported from a module that is not part of the sources at hand.  The
    specification says that at each tool boundary exceptions are caught,
    translated into the uniform client-error type, and logged before they
    are raised again to the caller; a value returned by the tool is
    passed on unchanged. *)
Definition handle_exceptions {A} (func : M A) : M A :=
  try_except func
    (fun e =>
       let error := handle_aws_api_error e in
       do logger_error (str error) then
       raise error).

(** *** [get_beanstalk_client] *)

(** [region_name or environ.get('AWS_REGION', DEFAULT_REGION)]. *)
Definition resolve_region (region_name : option string) : string :=
  match region_name with
  | Some r => if truthy r then r else environ_get "AWS_REGION" DEFAULT_REGION
  | None => environ_get "AWS_REGION" DEFAULT_REGION
  end.

Definition get_beanstalk_client (region_name : option string) : M Client :=
  let region := resolve_region region_name in
  let config := USER_AGENT_EXTRA in
  try_except
    (let* session := boto3_Session region in
     let* client := session_client session "elasticbeanstalk" config in
     (* Verify credentials by making a simple API call *)
     do invoke client "describe_applications" ∅ then
     ret client)
    (fun e =>
       let error := handle_aws_api_error e in
       do logger_error ("Error creating Elastic Beanstalk client: " ++ str error) then
       raise error).

(** *** The four tools *)

(** [if arg: params[key] = arg], for an argument whose default is
    [None]; [inj] is the Python value of the argument. *)
Definition set_if {A} `{Truthy A} (key : string) (inj : A -> pyval)
    (arg : option A) (params : pydict) : pydict :=
  match arg with
  | Some a => if truthy a then <[key := inj a]> params else params
  | None => params
  end.

Definition PStrs (l : list string) : pyval := PList (PStr <$> l).

Definition describe_environments
    (application_name : option string)
    (environment_names environment_ids : option (list string))
    (include_deleted : bool)
    (region_name : option string) : M pydict :=
  let* client := get_beanstalk_client region_name in
  let params : pydict := ∅ in
  let params := set_if "ApplicationName" PStr application_name params in
  let params := set_if "EnvironmentNames" PStrs environment_names params in
  let params := set_if "EnvironmentIds" PStrs environment_ids params in
  let params :=
    if truthy include_deleted
    then <["IncludeDeleted" := PBool include_deleted]> params
    else params in
  let* response := invoke client "describe_environments" params in
  ret (<["Environments" := dict_get response "Environments" (PList [])]>
       (<["NextToken" := dict_get response "NextToken" PNone]> ∅)).

Definition describe_applications
    (application_names : option (list string))
    (region_name : option string) : M pydict :=
  let* client := get_beanstalk_client region_name in
  let params : pydict := ∅ in
  let params := set_if "ApplicationNames" PStrs application_names params in
  let* response := invoke client "describe_applications" params in
  ret (<["Applications" := dict_get response "Applications" (PList [])]> ∅).

Definition describe_events
    (application_name environment_name environment_id : option string)
    (start_time end_time : option string)
    (max_records : option Z)
    (severity : option string)
    (region_name : option string) : M pydict :=
  let* client := get_beanstalk_client region_name in
  let params : pydict := ∅ in
  let params := set_if "ApplicationName" PStr application_name params in
  let params := set_if "EnvironmentName" PStr environment_name params in
  let params := set_if "EnvironmentId" PStr environment_id params in
  let params := set_if "StartTime" PStr start_time params in
  let params := set_if "EndTime" PStr end_time params in
  let params := set_if "MaxRecords" PInt max_records params in
  let params := set_if "Severity" PStr severity params in
  let* response := invoke client "describe_events" params in
  ret (<["Events" := dict_get response "Events" (PList [])]>
       (<["NextToken" := dict_get response "NextToken" PNone]> ∅)).

Definition missing_name_msg : string :=
  "Either environment_name or template_name must be provided".

Definition describe_config_settings
    (application_name : string)
    (environment_name template_name : option string)
    (region_name : option string) : M pydict :=
  let* client := get_beanstalk_client region_name in
  if negb (truthy environment_name) && negb (truthy template_name) then
    let error_msg := missing_name_msg in
    do ctx_error error_msg then
    raise (ClientError error_msg)
  else
    let params : pydict := {["ApplicationName" := PStr application_name]} in
    let params :=
      if truthy environment_name
      then set_if "EnvironmentName" PStr environment_name params
      else set_if "TemplateName" PStr template_name params in
    let* response := invoke client "describe_configuration_settings" params in
    ret (<["ConfigurationSettings" :=
             dict_get response "ConfigurationSettings" (PList [])]> ∅).

(** *** The tools as the protocol sees them *)

(** A tool invocation: the tool and the arguments it is called with.  An
    argument that the caller leaves out arrives as the default declared
    for it, [None] (or [False] for [include_deleted]). *)
Inductive tool_call : Type :=
| DescribeEnvironments
    (application_name : option string)
    (environment_names environment_ids : option (list string))
    (include_deleted : bool)
    (region_name : option string)
| DescribeApplications
    (application_names : option (list string))
    (region_name : option string)
| DescribeEvents
    (application_name environment_name environment_id : option string)
    (start_time end_time : option string)
    (max_records : option Z)
    (severity : option string)
    (region_name : option string)
| DescribeConfigSettings
    (application_name : string)
    (environment_name template_name : option string)
    (region_name : option string).

(** The function the tool is defined by. *)
Definition tool_function (c : tool_call) : M pydict :=
  match c with
  | DescribeEnvironments a ns ids d r => describe_environments a ns ids d r
  | DescribeApplications ns r => describe_applications ns r
  | DescribeEvents a e i st et mx sv r => describe_events a e i st et mx sv r
  | DescribeConfigSettings a e t r => describe_config_settings a e t r
  end.

(** The tool as registered: every function carries the decorator
    [@handle_exceptions]. *)
Definition call_tool (c : tool_call) : M pydict :=
  handle_exceptions (tool_function c).

Definition region_argument (c : tool_call) : option string :=
  match c with
  | DescribeEnvironments _ _ _ _ r => r
  | DescribeApplications _ r => r
  | DescribeEvents _ _ _ _ _ _ _ r => r
  | DescribeConfigSettings _ _ _ r => r
  end.

(** The credential check of [get_beanstalk_client]. *)
Definition verification (region : string) : event :=
  ApiCall region "describe_applications" ∅.

(** What [get_beanstalk_client] logs when it fails. *)
Definition construction_failure (e : raw_error) : event :=
  LogError ("Error creating Elastic Beanstalk client: " ++ error_text (SdkError e)).

(** The four ways [get_beanstalk_client] can go for a region: boto3
    refuses the session, it refuses the client, the verification call
    fails, or the client is returned. *)
Inductive construction (region : string)
  : outcome Client -> list event -> Prop :=
| session_refused e :
    new_session sdk region = Some e ->
    construction region
      (Raised (ClientError (error_text (SdkError e))))
      [SessionCreated region; construction_failure e]
| client_refused e :
    new_session sdk region = None ->
    new_client sdk region "elasticbeanstalk" USER_AGENT_EXTRA = Some e ->
    construction region
      (Raised (ClientError (error_text (SdkError e))))
      [SessionCreated region;
       ClientCreated "elasticbeanstalk" USER_AGENT_EXTRA;
       construction_failure e]
| verification_failed e :
    new_session sdk region = None ->
    new_client sdk region "elasticbeanstalk" USER_AGENT_EXTRA = None ->
    answer sdk [SessionCreated region;
                ClientCreated "elasticbeanstalk" USER_AGENT_EXTRA]
           region "describe_applications" ∅ = inl e ->
    construction region
      (Raised (ClientError (error_text (SdkError e))))
      [SessionCreated region;
       ClientCreated "elasticbeanstalk" USER_AGENT_EXTRA;
       verification region;
       construction_failure e]
| constructed response :
    new_session sdk region = None ->
    new_client sdk region "elasticbeanstalk" USER_AGENT_EXTRA = None ->
    answer sdk [SessionCreated region;
                ClientCreated "elasticbeanstalk" USER_AGENT_EXTRA]
           region "describe_applications" ∅ = inr response ->
    construction region
      (Returned {| client_region := region |})
      [SessionCreated region;
       ClientCreated "elasticbeanstalk" USER_AGENT_EXTRA;
       verification region].

(** The filters of an invocation that the caller left out. *)
Definition omitted {A} (key : string) (arg : option A) : list string :=
  match arg with None => [key] | Some _ => [] end.

Definition omitted_filters (c : tool_call) : list string :=
  match c with
  | DescribeEnvironments a ns ids d _ =>
      omitted "ApplicationName" a ++ omitted "EnvironmentNames" ns ++
      omitted "EnvironmentIds" ids ++
      (if d then [] else ["IncludeDeleted"])
  | DescribeApplications ns _ =>
      omitted "ApplicationNames" ns
  | DescribeEvents a e i st et mx sv _ =>
      omitted "ApplicationName" a ++ omitted "EnvironmentName" e ++
      omitted "EnvironmentId" i ++ omitted "StartTime" st ++
      omitted "EndTime" et ++ omitted "MaxRecords" mx ++
      omitted "Severity" sv
  | DescribeConfigSettings _ e t _ =>
      omitted "EnvironmentName" e ++ omitted "TemplateName" t
  end%list.

(** The filters of an invocation that are left out or supplied with a
    falsy value. *)
Definition falsy {A} `{Truthy A} (key : string) (arg : A) : list string :=
  if truthy arg then [] else [key].

Definition falsy_filters (c : tool_call) : list string :=
  match c with
  | DescribeEnvironments a ns ids d _ =>
      falsy "ApplicationName" a ++ falsy "EnvironmentNames" ns ++
      falsy "EnvironmentIds" ids ++ falsy "IncludeDeleted" d
  | DescribeApplications ns _ =>
      falsy "ApplicationNames" ns
  | DescribeEvents a e i st et mx sv _ =>
      falsy "ApplicationName" a ++ falsy "EnvironmentName" e ++
      falsy "EnvironmentId" i ++ falsy "StartTime" st ++
      falsy "EndTime" et ++ falsy "MaxRecords" mx ++
      falsy "Severity" sv
  | DescribeConfigSettings _ e t _ =>
      falsy "EnvironmentName" e ++ falsy "TemplateName" t
  end%list.

(** A falsy argument replaced by the omitted one. *)
Definition omit_falsy {A} `{Truthy A} (arg : option A) : option A :=
  if truthy arg then arg else None.

Definition omit_falsy_arguments (c : tool_call) : tool_call :=
  match c with
  | DescribeEnvironments a ns ids d r =>
      DescribeEnvironments (omit_falsy a) (omit_falsy ns) (omit_falsy ids) d
        (omit_falsy r)
  | DescribeApplications ns r =>
      DescribeApplications (omit_falsy ns) (omit_falsy r)
  | DescribeEvents a e i st et mx sv r =>
      DescribeEvents (omit_falsy a) (omit_falsy e) (omit_falsy i)
        (omit_falsy st) (omit_falsy et) (omit_falsy mx) (omit_falsy sv)
        (omit_falsy r)
  | DescribeConfigSettings a e t r =>
      DescribeConfigSettings a (omit_falsy e) (omit_falsy t) (omit_falsy r)
  end.

(** A request that carries none of the given keys (any other effect
    qualifies). *)
Definition without_keys (keys : list string) (ev : event) : Prop :=
  match ev with
  | ApiCall _ _ params => Forall (fun key => params !! key = None) keys
  | _ => True
  end.

(** An effect of an invocation, whether the function is entered as
    written or through its decorator. *)
Definition performs (c : tool_call) (ev : event) : Prop :=
  ev ∈ trace (tool_function c) \/ ev ∈ trace (call_tool c).

(** *** Vocabulary for the further properties *)

Definition is_LogError (ev : event) : bool :=
  match ev with LogError _ => true | _ => false end.

Definition is_CtxError (ev : event) : bool :=
  match ev with CtxError _ => true | _ => false end.

(** The SDK method behind each tool. *)
Definition operation_of (c : tool_call) : string :=
  match c with
  | DescribeEnvironments _ _ _ _ _ => "describe_environments"
  | DescribeApplications _ _ => "describe_applications"
  | DescribeEvents _ _ _ _ _ _ _ _ => "describe_events"
  | DescribeConfigSettings _ _ _ _ => "describe_configuration_settings"
  end.

(** What a filter argument puts under its key: its value when it is
    truthy, nothing otherwise. *)
Definition forwarded {A} `{Truthy A} (inj : A -> pyval) (arg : option A)
  : option pyval :=
  match arg with
  | Some a => if truthy a then Some (inj a) else None
  | None => None
  end.

(** Key by key, what the tool's own request is to carry. *)
Definition expected_params (c : tool_call) : list (string * option pyval) :=
  match c with
  | DescribeEnvironments a ns ids d _ =>
      [("ApplicationName", forwarded PStr a);
       ("EnvironmentNames", forwarded PStrs ns);
       ("EnvironmentIds", forwarded PStrs ids);
       ("IncludeDeleted", if d then Some (PBool true) else None)]
  | DescribeApplications ns _ =>
      [("ApplicationNames", forwarded PStrs ns)]
  | DescribeEvents a e i st et mx sv _ =>
      [("ApplicationName", forwarded PStr a);
       ("EnvironmentName", forwarded PStr e);
       ("EnvironmentId", forwarded PStr i);
       ("StartTime", forwarded PStr st);
       ("EndTime", forwarded PStr et);
       ("MaxRecords", forwarded PInt mx);
       ("Severity", forwarded PStr sv)]
  | DescribeConfigSettings a e t _ =>
      [("ApplicationName", Some (PStr a));
       ("EnvironmentName", forwarded PStr e);
       ("TemplateName", if truthy e then None else forwarded PStr t)]
  end.

(** The dictionary a tool makes of the response to its request. *)
Definition expected_result (c : tool_call) (response : pydict) : pydict :=
  match c with
  | DescribeEnvironments _ _ _ _ _ =>
      {["Environments" := default (PList []) (response !! "Environments");
        "NextToken" := default PNone (response !! "NextToken")]}
  | DescribeApplications _ _ =>
      {["Applications" := default (PList []) (response !! "Applications")]}
  | DescribeEvents _ _ _ _ _ _ _ _ =>
      {["Events" := default (PList []) (response !! "Events");
        "NextToken" := default PNone (response !! "NextToken")]}
  | DescribeConfigSettings _ _ _ _ =>
      {["ConfigurationSettings" :=
          default (PList []) (response !! "ConfigurationSettings")]}
  end.

(** ** Properties *)

(** *** Parameters *)

Lemma set_if_falsy {A} `{Truthy A} key (inj : A -> pyval) arg (params : pydict) :
  truthy arg = false -> set_if key inj arg params = params.
Proof.
  destruct arg as [a|]; simpl; [|done].
  unfold truthy at 1; simpl. by intros ->.
Qed.

Lemma lookup_set_if_ne {A} `{Truthy A} key key' (inj : A -> pyval) arg
    (params : pydict) :
  key <> key' -> set_if key inj arg params !! key' = params !! key'.
Proof.
  intros Hne. destruct arg as [a|]; simpl; [|done].
  destruct (truthy a); [|done]. by rewrite lookup_insert_ne.
Qed.

Lemma lookup_set_if_falsy {A} `{Truthy A} key key' (inj : A -> pyval) arg
    (params : pydict) :
  truthy arg = false -> set_if key inj arg params !! key' = params !! key'.
Proof. intros Hf. by rewrite set_if_falsy. Qed.

Lemma truthy_omit_falsy {A} `{Truthy A} (arg : option A) :
  truthy (omit_falsy arg) = truthy arg.
Proof. unfold omit_falsy. by destruct (truthy arg) eqn:E. Qed.

Lemma set_if_omit_falsy {A} `{Truthy A} key (inj : A -> pyval) arg
    (params : pydict) :
  set_if key inj (omit_falsy arg) params = set_if key inj arg params.
Proof.
  unfold omit_falsy. destruct (truthy arg) eqn:E; [done|].
  by rewrite (set_if_falsy _ _ arg).
Qed.

Lemma omitted_falsy {A} `{Truthy A} key (arg : option A) k :
  k ∈ omitted key arg -> k ∈ falsy key arg.
Proof. destruct arg; simpl; [by intros ?%elem_of_nil|]. done. Qed.

(** *** Region *)

Lemma resolve_region_omit_falsy region_name :
  resolve_region (omit_falsy region_name) = resolve_region region_name.
Proof. by destruct region_name as [[|c r]|]. Qed.

Lemma get_beanstalk_client_omit_falsy region_name :
  get_beanstalk_client (omit_falsy region_name) = get_beanstalk_client region_name.
Proof.
  unfold get_beanstalk_client. by rewrite resolve_region_omit_falsy.
Qed.

(** *** Client construction *)

Lemma get_beanstalk_client_construction region_name :
  construction (resolve_region region_name)
    (result (get_beanstalk_client region_name))
    (trace (get_beanstalk_client region_name)).
Proof.
  unfold result, trace, run, get_beanstalk_client, try_except, bind,
    boto3_Session, session_client, invoke, logger_error, emit, ret, raise,
    handle_aws_api_error.
  set (region := resolve_region region_name). simpl.
  destruct (new_session sdk region) as [e|] eqn:Hs; simpl.
  { by apply session_refused. }
  destruct (new_client sdk region "elasticbeanstalk" USER_AGENT_EXTRA)
    as [e|] eqn:Hc; simpl.
  { by apply client_refused. }
  destruct (answer sdk _ region "describe_applications" ∅)
    as [e|response] eqn:Ha; simpl.
  - by apply verification_failed.
  - by eapply constructed.
Qed.

(** Case analysis on how the client construction of the goal went. *)
Ltac client_cases r :=
  let Hcons := fresh "Hcons" in
  let res := fresh "res" in
  let tr := fresh "tr" in
  pose proof (get_beanstalk_client_construction r) as Hcons;
  unfold result, trace, run in Hcons;
  unfold result, trace, run, handle_exceptions, try_except, bind;
  cbv beta;
  destruct (get_beanstalk_client r []) as [res tr];
  simpl in Hcons;
  destruct Hcons as [e Hs | e Hs Hc | e Hs Hc Ha | response Hs Hc Ha].

(** Unfolding of the monad's operations. *)
Ltac run_monad :=
  unfold handle_exceptions, try_except, bind, invoke, ctx_error, logger_error,
    emit, ret, raise, handle_aws_api_error; simpl.

(** C5: region resolution follows the precedence explicit parameter, then
    the environment variable [AWS_REGION], then [DEFAULT_REGION].  A
    region name that is given (a non-empty string) is the region; without
    one, the value of [AWS_REGION] is the region when the variable is set,
    and [DEFAULT_REGION] when it is not.  The client is constructed with
    that region: the session is created for it, every request of the
    construction goes to it, and the client that is returned belongs to
    it.  In particular, with [region_name] left out and [AWS_REGION] not
    set, the client is constructed with [DEFAULT_REGION]. *)
Theorem region_precedence (region_name : option string) :
  let region := resolve_region region_name in
  match region_name with
  | Some (String c r) => region = String c r
  | _ =>
      match environ !! "AWS_REGION" with
      | Some value => region = value
      | None => region = DEFAULT_REGION
      end
  end
  /\ head (trace (get_beanstalk_client region_name)) = Some (SessionCreated region)
  /\ api_calls (trace (get_beanstalk_client region_name))
     = match new_session sdk region,
             new_client sdk region "elasticbeanstalk" USER_AGENT_EXTRA with
       | None, None => [verification region]
       | _, _ => []
       end
  /\ match result (get_beanstalk_client region_name) with
     | Returned client => client_region client = region
     | Raised _ => True
     end.
Proof.
  intros region. split.
  { subst region. unfold resolve_region, environ_get.
    destruct region_name as [[|c r]|]; simpl;
      destruct (environ !! "AWS_REGION"); done. }
  client_cases region_name; fold region in Hs |- *; try fold region in Hc;
    rewrite ?Hs, ?Hc; done.
Qed.

(** *** The decorator *)

(** The decorator passes a returned value on and adds nothing to the
    trace in that case. *)
Lemma handle_exceptions_returned {A} (func : M A) (a : A) :
  result func = Returned a ->
  result (handle_exceptions func) = Returned a /\
  trace (handle_exceptions func) = trace func.
Proof.
  unfold result, trace, run, handle_exceptions, try_except.
  destruct (func []) as [[a'|e] tr]; simpl; [|done]. by intros [= ->].
Qed.

(** When the function raises, the decorator logs and raises the
    translated exception. *)
Lemma handle_exceptions_raised {A} (func : M A) (e : exn) :
  result func = Raised e ->
  result (handle_exceptions func) = Raised (ClientError (error_text e)) /\
  trace (handle_exceptions func) = (trace func ++ [LogError (error_text e)])%list.
Proof.
  unfold result, trace, run, handle_exceptions, try_except.
  destruct (func []) as [[a'|e'] tr]; simpl; [done|]. by intros [= ->].
Qed.

(** The decorator sends nothing to AWS. *)
Lemma handle_exceptions_api_calls {A} (func : M A) :
  api_calls (trace (handle_exceptions func)) = api_calls (trace func).
Proof.
  destruct (result func) as [a|e] eqn:E.
  - by destruct (handle_exceptions_returned func a E) as [_ ->].
  - destruct (handle_exceptions_raised func e E) as [_ ->].
    unfold api_calls. rewrite List.filter_app. simpl. by rewrite app_nil_r.
Qed.

(** *** [describe_config_settings] without a name *)

(** C1 (as amended): when [environment_name] and [template_name] are both
    left out, whatever [application_name] is, [describe_config_settings]
    raises a [ClientError] and never makes a
    [describe_configuration_settings] call.  The error is not raised
    before AWS is contacted: the client is constructed first, and whenever
    boto3 hands out the session and the client object the construction
    makes its verification call, which is then the only call of the
    invocation; when boto3 refuses the session or the client object, no
    call is made at all.  When the construction succeeds, the error is
    the one with the missing-name message, reported to the context before
    it is raised; when the construction fails, its error is the one
    raised.  Behind the decorator the outcome is a [ClientError] as well
    and the calls are the same. *)
Theorem missing_names_rejected (application_name : string)
    (region_name : option string) :
  let func := describe_config_settings application_name None None region_name in
  let tool := call_tool (DescribeConfigSettings application_name None None region_name) in
  let region := resolve_region region_name in
  match result (get_beanstalk_client region_name) with
  | Returned _ =>
      result func = Raised (ClientError missing_name_msg) /\
      last (trace func) = Some (CtxError missing_name_msg) /\
      api_calls (trace func) = [verification region]
  | Raised e =>
      result func = Raised e /\
      is_ClientError e = true /\
      (api_calls (trace func) = [verification region] \/
       api_calls (trace func) = [])
  end
  /\ (exists message, result tool = Raised (ClientError message))
  /\ api_calls (trace tool) = api_calls (trace func)
  /\ api_calls (trace func)
     = match new_session sdk region,
             new_client sdk region "elasticbeanstalk" USER_AGENT_EXTRA with
       | None, None => [verification region]
       | _, _ => []
       end.
Proof.
  intros func tool region.
  assert (Hcalls :
    api_calls (trace func)
    = match new_session sdk region,
            new_client sdk region "elasticbeanstalk" USER_AGENT_EXTRA with
      | None, None => [verification region]
      | _, _ => []
      end).
  { subst func region. unfold describe_config_settings.
    client_cases region_name; run_monad; rewrite ?Hs, ?Hc; done. }
  assert (Hfunc :
    match result (get_beanstalk_client region_name) with
    | Returned _ =>
        result func = Raised (ClientError missing_name_msg) /\
        last (trace func) = Some (CtxError missing_name_msg) /\
        api_calls (trace func) = [verification region]
    | Raised e =>
        result func = Raised e /\
        is_ClientError e = true /\
        (api_calls (trace func) = [verification region] \/
         api_calls (trace func) = [])
    end).
  { subst func. unfold describe_config_settings.
    client_cases region_name; fold region; run_monad; auto. }
  split; [exact Hfunc|].
  change tool with (handle_exceptions func). split.
  - destruct (result func) as [d|e] eqn:E.
    + destruct (result (get_beanstalk_client region_name));
        by destruct Hfunc as [? _].
    + destruct (handle_exceptions_raised func e E) as [-> _]. eauto.
  - split; [apply handle_exceptions_api_calls|exact Hcalls].
Qed.

(** Case analysis on an invocation: which tool, how the client
    construction went, and what AWS answered to the tool's own request. *)
Ltac tool_cases c :=
  destruct c; simpl tool_function in *; simpl region_argument in *;
  unfold describe_environments, describe_applications, describe_events,
    describe_config_settings in *;
  match goal with
  | |- context [get_beanstalk_client ?r] => client_cases r
  end;
  run_monad;
  repeat match goal with
  | |- context [if ?b then _ else _] =>
      match b with
      | negb _ && negb _ => destruct b eqn:?; simpl
      end
  | |- context [answer sdk ?tr ?region ?op ?params] =>
      let Ha := fresh "Hanswer" in
      destruct (answer sdk tr region op params) eqn:Ha; simpl
  end.

(** *** Exceptions *)

(** C2: whatever the SDK raises, the exception that reaches the caller of
    a tool is a [ClientError], never the exception of the SDK, and it has
    been logged at the tool boundary (the last effect of the invocation is
    the log line with its text).  The same holds at the client-construction
    boundary: an exception that leaves [get_beanstalk_client] is a
    [ClientError] and the last effect is the log line that announces it.
    And when the function behind a tool lets an exception of the SDK
    through, it is the answer to the tool's own request, and the caller
    receives its translation. *)
Theorem uniform_client_error (c : tool_call) :
  match result (call_tool c) with
  | Returned _ => True
  | Raised e =>
      is_ClientError e = true /\
      last (trace (call_tool c)) = Some (LogError (str e))
  end
  /\ match result (get_beanstalk_client (region_argument c)) with
     | Returned _ => True
     | Raised e =>
         is_ClientError e = true /\
         last (trace (get_beanstalk_client (region_argument c)))
         = Some (LogError ("Error creating Elastic Beanstalk client: " ++ str e))
     end
  /\ match result (tool_function c) with
     | Raised (SdkError raw) =>
         (exists history region operation params,
            trace (tool_function c)
            = (history ++ [ApiCall region operation params])%list /\
            answer sdk history region operation params = inl raw) /\
         result (call_tool c) = Raised (ClientError (error_text (SdkError raw)))
     | _ => True
     end.
Proof.
  split; [|split].
  - unfold call_tool. destruct (result (tool_function c)) as [d|e] eqn:E.
    + by destruct (handle_exceptions_returned _ d E) as [-> _].
    + destruct (handle_exceptions_raised _ e E) as [-> ->].
      split; [done|]. by rewrite last_snoc.
  - generalize (region_argument c). intros r.
    pose proof (get_beanstalk_client_construction r) as Hcons.
    destruct Hcons; done.
  - destruct (result (tool_function c)) as [d|[m|raw]] eqn:E; try done.
    split.
    + revert E. tool_cases c; intros [= <-]; try done.
      all: eexists [_; _; _], _, _, _; split; [reflexivity|eassumption].
    + unfold call_tool. by destruct (handle_exceptions_raised _ _ E) as [-> _].
Qed.

(** *** Verification before the tool's own logic *)

(** C9 (as amended): [get_beanstalk_client] returns the client only after
    its verification request ([describe_applications] without arguments);
    the request is the last effect before the return.  Every invocation
    of a tool in which boto3 hands out the session and the client object
    therefore contacts AWS during client construction: the first three
    effects of the invocation are the session, the client and the
    verification request, so that validation and filtering come later.  A
    failure of the verification request is raised as a [ClientError] after
    the log line that announces it.  When boto3 refuses the session or the
    client object, the invocation ends with a [ClientError] and no request
    is sent at all. *)
Theorem verification_precedes_tool_logic (c : tool_call) :
  let region := resolve_region (region_argument c) in
  let created :=
    [SessionCreated region; ClientCreated "elasticbeanstalk" USER_AGENT_EXTRA] in
  match result (get_beanstalk_client (region_argument c)) with
  | Returned _ =>
      last (trace (get_beanstalk_client (region_argument c)))
      = Some (verification region)
  | Raised _ => True
  end
  /\ match new_session sdk region,
           new_client sdk region "elasticbeanstalk" USER_AGENT_EXTRA with
     | None, None =>
         take 3 (trace (tool_function c)) = (created ++ [verification region])%list /\
         take 3 (trace (call_tool c)) = (created ++ [verification region])%list /\
         match answer sdk created region "describe_applications" ∅ with
         | inl e =>
             run (tool_function c)
             = (Raised (ClientError (error_text (SdkError e))),
                (created ++ [verification region; construction_failure e])%list) /\
             exists message, result (call_tool c) = Raised (ClientError message)
         | inr _ => True
         end
     | _, _ =>
         api_calls (trace (tool_function c)) = [] /\
         api_calls (trace (call_tool c)) = [] /\
         exists message, result (call_tool c) = Raised (ClientError message)
     end.
Proof.
  intros region created. split.
  { subst region. generalize (region_argument c). intros r.
    pose proof (get_beanstalk_client_construction r) as Hcons.
    destruct Hcons; done. }
  subst region created. unfold call_tool.
  tool_cases c; rewrite ?Hs, ?Hc, ?Ha; simpl; simplify_eq; eauto 10.
Qed.

(** *** Sparse parameters *)

Lemma without_keys_subseteq (keys keys' : list string) (ev : event) :
  (forall key, key ∈ keys -> key ∈ keys') ->
  without_keys keys' ev -> without_keys keys ev.
Proof.
  intros Hsub. destruct ev; simpl; try done.
  rewrite !Forall_forall. auto.
Qed.

Lemma omitted_filters_falsy (c : tool_call) (key : string) :
  key ∈ omitted_filters c -> key ∈ falsy_filters c.
Proof.
  destruct c; simpl; rewrite ?elem_of_app;
    intuition auto using @omitted_falsy.
Qed.

(** A key is absent from the parameters when its argument is falsy. *)
Ltac absent :=
  repeat first
    [ rewrite lookup_empty
    | rewrite lookup_set_if_falsy by assumption
    | rewrite lookup_set_if_ne by done
    | rewrite lookup_insert_ne by done
    | match goal with
      | H : truthy ?b = _ |- context [if truthy ?b then _ else _] => rewrite H
      | |- context [if truthy ?b then _ else _] => destruct (truthy b)
      end ];
  done.

Ltac falsy_keys :=
  unfold verification; simpl without_keys;
  rewrite ?Forall_app; unfold falsy;
  repeat split;
  match goal with
  | |- Forall _ (if truthy ?a then _ else _) =>
      let E := fresh "E" in
      destruct (truthy a) eqn:E; constructor; [absent|constructor]
  end.

(** No request of an invocation carries the key of a filter whose
    argument is falsy. *)
Lemma falsy_filters_not_sent (c : tool_call) :
  Forall (without_keys (falsy_filters c)) (trace (tool_function c)).
Proof.
  tool_cases c; repeat constructor; falsy_keys.
Qed.

Lemma call_tool_trace (c : tool_call) :
  trace (call_tool c) = trace (tool_function c) \/
  exists line, trace (call_tool c) = (trace (tool_function c) ++ [LogError line])%list.
Proof.
  unfold call_tool. destruct (result (tool_function c)) as [d|e] eqn:E.
  - left. by destruct (handle_exceptions_returned _ d E).
  - right. destruct (handle_exceptions_raised _ e E) as [_ ->]. eauto.
Qed.

Lemma call_tool_Forall (P : event -> Prop) (c : tool_call) :
  (forall line, P (LogError line)) ->
  Forall P (trace (tool_function c)) -> Forall P (trace (call_tool c)).
Proof.
  intros Hlog Hfunc. destruct (call_tool_trace c) as [-> | [line ->]]; [done|].
  apply Forall_app. split; [done|]. constructor; [apply Hlog|constructor].
Qed.

(** C3: in every invocation of each of the four tools, every request that
    is sent (the tool's own as well as the verification request of the
    client construction) is free of the key of every optional filter that
    the caller left out; this holds for the function as written and for the
    tool behind its decorator. *)
Theorem omitted_filters_not_sent (c : tool_call) :
  Forall (without_keys (omitted_filters c)) (trace (tool_function c)) /\
  Forall (without_keys (omitted_filters c)) (trace (call_tool c)).
Proof.
  assert (Hfunc : Forall (without_keys (omitted_filters c)) (trace (tool_function c))).
  { eapply Forall_impl; [apply falsy_filters_not_sent|].
    intros ev. apply without_keys_subseteq, omitted_filters_falsy. }
  split; [done|]. by apply call_tool_Forall.
Qed.

(** *** Falsy arguments *)

Lemma tool_function_omit_falsy (c : tool_call) :
  tool_function (omit_falsy_arguments c) = tool_function c.
Proof.
  destruct c; simpl;
    unfold describe_environments, describe_applications, describe_events,
      describe_config_settings;
    cbv zeta;
    rewrite get_beanstalk_client_omit_falsy, ?set_if_omit_falsy,
      ?truthy_omit_falsy;
    reflexivity.
Qed.

(** C10: an argument supplied with a falsy value (the empty string, the
    empty list, [max_records = 0], [include_deleted = False]) is treated
    exactly like an argument that is left out: replacing every falsy
    argument of an invocation by the omitted one changes neither the
    function nor the tool, and no request carries the key of a filter whose
    argument is falsy.  A [region_name] given as the empty string resolves
    like an omitted one, to [AWS_REGION] when it is set and to
    [DEFAULT_REGION] otherwise.  And [describe_config_settings] with both
    names given as empty strings ends like the call without names: once
    the client is constructed, in the [ClientError] with the missing-name
    message. *)
Theorem falsy_arguments_as_omitted (c : tool_call) :
  tool_function c = tool_function (omit_falsy_arguments c)
  /\ call_tool c = call_tool (omit_falsy_arguments c)
  /\ Forall (without_keys (falsy_filters c)) (trace (tool_function c))
  /\ Forall (without_keys (falsy_filters c)) (trace (call_tool c))
  /\ (omit_falsy (Some "") = None
      /\ omit_falsy (Some (@nil string)) = None
      /\ omit_falsy (Some 0%Z) = None
      /\ falsy "IncludeDeleted" false = ["IncludeDeleted"])
  /\ resolve_region (Some "") = resolve_region None
  /\ match environ !! "AWS_REGION" with
     | Some value => resolve_region (Some "") = value
     | None => resolve_region (Some "") = DEFAULT_REGION
     end
  /\ match c with
     | DescribeConfigSettings application_name _ _ region_name =>
         let func :=
           describe_config_settings application_name (Some "") (Some "")
             region_name in
         func = describe_config_settings application_name None None region_name /\
         match result (get_beanstalk_client region_name) with
         | Returned _ => result func = Raised (ClientError missing_name_msg)
         | Raised e => result func = Raised e
         end
     | _ => True
     end.
Proof.
  split; [by rewrite tool_function_omit_falsy|].
  split; [unfold call_tool; by rewrite tool_function_omit_falsy|].
  split; [apply falsy_filters_not_sent|].
  split; [by apply call_tool_Forall, falsy_filters_not_sent|].
  split; [done|]. split; [done|].
  split; [unfold resolve_region, environ_get; simpl;
          by destruct (environ !! "AWS_REGION")|].
  destruct c as [| | |application_name ename tname region_name]; try done.
  intros func. split; [done|].
  subst func. unfold describe_config_settings.
  client_cases region_name; run_monad; done.
Qed.

(** *** [describe_config_settings] with both names *)

Lemma performs_ApiCall (c : tool_call) region operation (params : pydict) :
  performs c (ApiCall region operation params) ->
  ApiCall region operation params ∈ trace (tool_function c).
Proof.
  intros [Hin|Hin]; [done|].
  destruct (call_tool_trace c) as [Heq | [line Heq]]; rewrite Heq in Hin; [done|].
  apply elem_of_app in Hin as [Hin|Hin]; [done|].
  by apply list_elem_of_singleton in Hin.
Qed.

(** C4: when [environment_name] and [template_name] are both supplied
    (non-empty), the [describe_configuration_settings] request carries the
    key [EnvironmentName], with the environment name, and not the key
    [TemplateName]. *)
Theorem environment_name_preferred
    (application_name environment_name template_name : string)
    (region_name : option string) (region : string) (params : pydict) :
  environment_name <> "" ->
  template_name <> "" ->
  performs
    (DescribeConfigSettings application_name (Some environment_name)
       (Some template_name) region_name)
    (ApiCall region "describe_configuration_settings" params) ->
  params !! "EnvironmentName" = Some (PStr environment_name) /\
  params !! "TemplateName" = None.
Proof.
  intros He Ht Hin%performs_ApiCall. revert Hin.
  destruct environment_name as [|c ename]; [done|].
  destruct template_name as [|c' tname]; [done|].
  simpl tool_function. unfold describe_config_settings.
  client_cases region_name; run_monad;
    try match goal with
        | |- context [answer sdk ?tr ?r ?op ?p] => destruct (answer sdk tr r op p)
        end;
    simpl; unfold verification; intros Hin; set_unfold; destruct_or?;
    simplify_eq.
  all: by rewrite lookup_insert_eq, lookup_insert_ne, lookup_singleton_ne.
Qed.

(** *** [describe_applications] without arguments *)

(** C6: [describe_applications] called without arguments does not raise
    and returns all applications.  Provided boto3 hands out the client and
    AWS answers the two requests (the verification and the tool's own),
    the tool's request is sent without any parameter, so that no
    application name restricts it, and the result has the single key
    [Applications], bound to the list of the response (the empty list when
    the response has none).  The decorated tool does the same. *)
Theorem describe_applications_without_arguments (verified reply : pydict) :
  let region := resolve_region None in
  let created :=
    [SessionCreated region; ClientCreated "elasticbeanstalk" USER_AGENT_EXTRA] in
  let outcome :=
    (Returned ({["Applications" := default (PList []) (reply !! "Applications")]}
                 : pydict),
     (created ++
      [verification region; ApiCall region "describe_applications" ∅])%list) in
  new_session sdk region = None ->
  new_client sdk region "elasticbeanstalk" USER_AGENT_EXTRA = None ->
  answer sdk created region "describe_applications" ∅ = inr verified ->
  answer sdk (created ++ [verification region])%list region
    "describe_applications" ∅ = inr reply ->
  run (describe_applications None None) = outcome /\
  run (call_tool (DescribeApplications None None)) = outcome.
Proof.
  intros region created outcome Hsession Hclient Hverified Hresponse.
  subst region created outcome. cbn [app] in Hresponse |- *.
  change (resolve_region None) with (environ_get "AWS_REGION" DEFAULT_REGION) in *.
  match goal with |- ?A /\ _ => assert (Hfunc : A) end.
  { unfold describe_applications.
    client_cases (@None string); simpl in *; run_monad; try congruence.
    unfold verification in Hresponse |- *. by rewrite Hresponse. }
  split; [done|].
  unfold call_tool, run in *. simpl tool_function.
  unfold handle_exceptions, try_except. by rewrite Hfunc.
Qed.

(** *** The result of [describe_environments] *)

(** C7: when [describe_environments] returns, the value is a dictionary
    with exactly the keys [Environments] and [NextToken].  Its
    [Environments] is the one of the response that AWS gave to the
    [describe_environments] request, or the empty list when the response
    has no such key; its [NextToken] is the one of the response when
    there is one, and [None] otherwise.  The decorated tool returns the
    same dictionary. *)
Theorem describe_environments_result
    (application_name : option string)
    (environment_names environment_ids : option (list string))
    (include_deleted : bool) (region_name : option string) (d : pydict) :
  result (describe_environments application_name environment_names
            environment_ids include_deleted region_name) = Returned d ->
  dom d = ({["Environments"; "NextToken"]} : gset string) /\
  (exists history region params response,
     trace (describe_environments application_name environment_names
              environment_ids include_deleted region_name)
     = (history ++ [ApiCall region "describe_environments" params])%list /\
     answer sdk history region "describe_environments" params = inr response /\
     d !! "Environments" = Some (default (PList []) (response !! "Environments")) /\
     d !! "NextToken" = Some (default PNone (response !! "NextToken"))) /\
  result (call_tool (DescribeEnvironments application_name environment_names
                       environment_ids include_deleted region_name))
  = Returned d.
Proof.
  intros Hd. split; [|split].
  - revert Hd. unfold describe_environments.
    client_cases region_name; run_monad; try done.
    match goal with
    | |- context [answer sdk ?tr ?r ?op ?p] => destruct (answer sdk tr r op p)
    end; simpl; intros [= <-].
    rewrite !dom_insert_L, dom_empty_L. set_solver.
  - revert Hd. unfold describe_environments.
    client_cases region_name; run_monad; try done.
    match goal with
    | |- context [answer sdk ?tr ?r ?op ?p] =>
        destruct (answer sdk tr r op p) eqn:Hanswer
    end; simpl; intros [= <-].
    eexists [_; _; _], _, _, _. split; [reflexivity|].
    split; [exact Hanswer|]. split.
    + by rewrite lookup_insert_eq.
    + by rewrite lookup_insert_ne, lookup_insert_eq.
  - unfold call_tool. simpl tool_function.
    by destruct (handle_exceptions_returned _ d Hd).
Qed.

(** ** Further properties of the tools *)

(** X1: when a tool returns, the value is made of the response that AWS
    gave to the tool's own request, the last effect of the invocation:
    [describe_applications] returns the single key [Applications],
    [describe_events] the keys [Events] and [NextToken],
    [describe_config_settings] the single key [ConfigurationSettings]
    (and [describe_environments] the keys [Environments] and
    [NextToken]); a list that the response lacks is the empty list, a
    missing [NextToken] is [None], and every other key of the response is
    dropped. *)
Theorem tool_result_shape (c : tool_call) (d : pydict) :
  result (tool_function c) = Returned d ->
  exists history region params response,
    trace (tool_function c)
    = (history ++ [ApiCall region (operation_of c) params])%list /\
    answer sdk history region (operation_of c) params = inr response /\
    d = expected_result c response.
Proof.
  tool_cases c; intros [= <-];
    eexists [_; _; _], _, _, _;
    (split; [reflexivity|]); (split; [eassumption|]); reflexivity.
Qed.

(** X2: an invocation that returns has performed exactly four effects:
    the session, the client, the verification request and the tool's own
    request, all for the resolved region.  It has written no log line and
    reported nothing to the context, and the decorator adds nothing. *)
Theorem returned_trace (c : tool_call) (d : pydict) :
  result (tool_function c) = Returned d ->
  let region := resolve_region (region_argument c) in
  (exists params,
     trace (tool_function c)
     = [SessionCreated region;
        ClientCreated "elasticbeanstalk" USER_AGENT_EXTRA;
        verification region;
        ApiCall region (operation_of c) params]) /\
  run (call_tool c) = run (tool_function c).
Proof.
  intros Hd region. split.
  - revert Hd. subst region. tool_cases c; intros [= <-]; eauto.
  - unfold call_tool.
    destruct (handle_exceptions_returned _ d Hd) as [Hr Ht].
    unfold result, trace in Hd, Hr, Ht.
    destruct (run (handle_exceptions (tool_function c))),
      (run (tool_function c)); simpl in *; congruence.
Qed.

(** X3: the module's code calls a method of the boto3 client at most
    twice in an invocation, whatever the SDK makes of each call on the
    wire: either no method is called (boto3 gave no client), or
    [describe_applications] alone, without arguments (the verification),
    or that call followed by one call of the tool's own method; every
    call is made on the client of the resolved region, and the decorator
    calls nothing. *)
Theorem at_most_two_method_calls (c : tool_call) :
  let region := resolve_region (region_argument c) in
  let calls := api_calls (trace (call_tool c)) in
  api_calls (trace (tool_function c)) = calls /\
  (calls = [] \/
   calls = [verification region] \/
   exists params,
     calls = [verification region; ApiCall region (operation_of c) params]).
Proof.
  intros region calls. subst calls region. unfold call_tool.
  rewrite handle_exceptions_api_calls. split; [done|].
  tool_cases c; eauto.
Qed.

Lemma lookup_set_if_eq {A} `{Truthy A} key (inj : A -> pyval) arg
    (params : pydict) :
  set_if key inj arg params !! key
  = match forwarded inj arg with Some v => Some v | None => params !! key end.
Proof.
  destruct arg as [a|]; simpl; [|done].
  destruct (truthy a); [|done]. by rewrite lookup_insert_eq.
Qed.

Lemma dom_set_if {A} `{Truthy A} key (inj : A -> pyval) arg (params : pydict)
    (keys : gset string) :
  key ∈ keys -> dom params ⊆ keys -> dom (set_if key inj arg params) ⊆ keys.
Proof.
  intros Hkey Hparams. destruct arg as [a|]; simpl; [|done].
  destruct (truthy a); [|done]. rewrite dom_insert_L.
  apply union_subseteq. split; [|done]. by apply singleton_subseteq_l.
Qed.

(** The value under a key of a chain of conditional assignments. *)
Ltac lookup_key :=
  rewrite ?lookup_insert_eq;
  repeat (rewrite lookup_set_if_ne by done);
  rewrite ?lookup_insert_ne by done;
  repeat (rewrite lookup_set_if_ne by done);
  rewrite ?lookup_set_if_eq, ?lookup_singleton_eq;
  repeat match goal with
  | |- context [forwarded ?inj ?arg] => destruct (forwarded inj arg)
  end;
  try done;
  repeat (rewrite lookup_set_if_ne by done);
  rewrite ?lookup_insert_ne by done;
  rewrite ?lookup_empty, ?lookup_singleton_ne by done;
  done.

(** The keys of a chain of conditional assignments. *)
Ltac dom_chain :=
  repeat first
    [ rewrite dom_insert_L; apply union_subseteq; split;
      [apply singleton_subseteq_l|]
    | apply dom_set_if
    | rewrite dom_singleton_L; apply singleton_subseteq_l
    | rewrite dom_empty_L; apply empty_subseteq ];
  set_solver.

(** X4: the tool's own request (the fourth effect of an invocation, after
    the session, the client and the verification request) calls the
    tool's SDK method in the resolved region with exactly the supplied
    filters: under each filter's key the argument's value when the
    argument is truthy and nothing otherwise, [ApplicationName] always
    for [describe_config_settings], [TemplateName] only when
    [environment_name] is falsy, and no key besides these. *)
Theorem own_request_params (c : tool_call) (region operation : string)
    (params : pydict) :
  trace (tool_function c) !! 3%nat = Some (ApiCall region operation params) ->
  operation = operation_of c /\
  region = resolve_region (region_argument c) /\
  Forall (fun entry => params !! entry.1 = entry.2) (expected_params c) /\
  dom params ⊆ list_to_set (expected_params c).*1.
Proof.
  tool_cases c; intros [= <- <- <-]; (split; [done|]); (split; [done|]);
    try match goal with d : bool |- _ => destruct d; simpl end;
    try match goal with
        | H : negb (truthy ?e) && negb (truthy ?t) = false |- _ =>
            destruct e as [[|? ?]|], t as [[|? ?]|]; simpl in *; try done
        end;
    split.
  all: try (repeat constructor; cbn [fst snd]; lookup_key).
  all: dom_chain.
Qed.

(** X6: only [describe_config_settings] ever reports to the tool
    context, and it does so once, with the missing-name message, exactly
    when the client has been constructed and both names are falsy; the
    other three tools never report anything to the context, whatever their
    arguments and whatever AWS answers. *)
Theorem context_reports (c : tool_call) :
  List.filter is_CtxError (trace (call_tool c))
  = match c with
    | DescribeConfigSettings _ environment_name template_name region_name =>
        match result (get_beanstalk_client region_name) with
        | Returned _ =>
            if negb (truthy environment_name) && negb (truthy template_name)
            then [CtxError missing_name_msg]
            else []
        | Raised _ => []
        end
    | _ => []
    end.
Proof.
  unfold call_tool. tool_cases c; try done.
  all: match goal with
       | H : negb _ && negb _ = _ |- _ => by rewrite H
       end.
Qed.

(** X7: the functions behind the tools write a log line only for a failed
    client construction, the one line that names the translated error; a
    request of the tool that AWS refuses, and the missing-name error of
    [describe_config_settings], leave the function without any log
    line. *)
Theorem function_log_lines (c : tool_call) :
  List.filter is_LogError (trace (tool_function c))
  = match result (get_beanstalk_client (region_argument c)) with
    | Raised e =>
        [LogError ("Error creating Elastic Beanstalk client: " ++ str e)]
    | Returned _ => []
    end.
Proof.
  tool_cases c; done.
Qed.

End Server.

(** ** The entry point *)

Lemma lookup_action_In (parser : argparse.ArgumentParser) (s : string)
    (action : argparse.Action) :
  argparse.lookup_action parser s = Some action ->
  In action (List.map snd (argparse.option_string_actions parser)).
Proof.
  unfold argparse.lookup_action.
  destruct (List.find _ _) as [[name action']|] eqn:Hfind; [|done].
  intros [= <-]. apply List.find_some in Hfind as [Hin _].
  apply (List.in_map snd) in Hin. exact Hin.
Qed.

Lemma get_option_tuples_In (parser : argparse.ArgumentParser) (s : string)
    (action : argparse.Action) (explicit_arg : option string) :
  In (action, explicit_arg) (argparse.get_option_tuples parser s) ->
  In action (List.map snd (argparse.option_string_actions parser)).
Proof.
  unfold argparse.get_option_tuples.
  generalize (argparse.option_string_actions parser). intros entries.
  assert (Homap : forall f : string * argparse.Action -> option (argparse.Action * option string),
    (forall entry r, f entry = Some r -> r.1 = entry.2) ->
    In (action, explicit_arg) (omap f entries) -> In action (List.map snd entries)).
  { intros f Hf Hin. apply list_elem_of_In, list_elem_of_omap in Hin
      as (entry & Hentry & Hr).
    apply Hf in Hr. simpl in Hr. subst action.
    apply List.in_map. by apply list_elem_of_In. }
  destruct s as [|a [|b s]]; try done.
  destruct (Ascii.eqb a "-" && Ascii.eqb b "-"); [|destruct (Ascii.eqb a "-")];
    [ | |done].
  - destruct (argparse.split_at _ _) as [[? ?]|];
      apply Homap; intros entry r;
      destruct (argparse.startswith _ _); by intros [= <-].
  - apply Homap. intros entry r.
    destruct (String.eqb _ _); [by intros [= <-]|].
    destruct (argparse.startswith _ _); by intros [= <-].
Qed.

(** An option selects an action that the parser knows. *)
Lemma parse_optional_In (parser : argparse.ArgumentParser) (s : string)
    (action : argparse.Action) (explicit_arg : option string) :
  argparse.parse_optional parser s = argparse.Opt (Some action) explicit_arg ->
  In action (List.map snd (argparse.option_string_actions parser)).
Proof.
  unfold argparse.parse_optional.
  destruct s as [|c rest]; [done|].
  destruct (negb (Ascii.eqb c "-")); [done|].
  destruct (argparse.lookup_action parser (String c rest)) as [found|] eqn:Hfound.
  { intros [= <- _]. by eapply lookup_action_In. }
  destruct rest as [|d rest]; [done|].
  destruct (argparse.split_at "=" (String c (String d rest)))
    as [[before after]|] eqn:Hsplit.
  - destruct (argparse.lookup_action parser before) as [found|] eqn:Hbefore.
    { intros [= <- _]. by eapply lookup_action_In. }
    destruct (argparse.get_option_tuples parser _)
      as [|[action' explicit'] [|? ?]] eqn:Htuples; try done.
    + by repeat case_match.
    + intros [= <- <-]. eapply get_option_tuples_In. rewrite Htuples. by left.
  - destruct (argparse.get_option_tuples parser _)
      as [|[action' explicit'] [|? ?]] eqn:Htuples; try done.
    + by repeat case_match.
    + intros [= <- <-]. eapply get_option_tuples_In. rewrite Htuples. by left.
Qed.

(** The only argument that the parser of [main] stores is [--readonly]. *)
Lemma main_parser_store (s : string) (a : argparse.Argument)
    (explicit_arg : option string) :
  argparse.parse_optional main_parser s
  = argparse.Opt (Some (argparse.StoreAction a)) explicit_arg ->
  argparse.arguments main_parser = [a].
Proof.
  intros Hopt%parse_optional_In. simpl in Hopt.
  destruct Hopt as [|[|[[= <-]|[]]]]; done.
Qed.

(** Parsing the command line of [main] keeps the namespace a dictionary
    with the single attribute [readonly]; its value is left as it is
    without a string that selects the flag, and is a boolean or the empty
    list otherwise. *)
Lemma consume_main (n : nat) :
  forall (argv : list string) (v : pyval) (seen : list string)
         (namespace : pydict) (seen' : list string),
    length argv <= n ->
    argparse.consume main_parser {["readonly" := v]} seen argv
    = Some (namespace, seen') ->
    exists v' : pyval,
      namespace = {["readonly" := v']} /\
      (if flag_given argv
       then v' = PList [] \/ exists b : bool, v' = PBool b
       else v' = v).
Proof.
  assert (Hvalue : forall a s,
    argparse.arguments main_parser = [a] ->
    argparse.dest a = "readonly" /\
    (argparse.get_values a s = PList [] \/
     exists b : bool, argparse.get_values a s = PBool b)).
  { intros a s [= <-]. split; [reflexivity|].
    unfold argparse.get_values. destruct (String.eqb s "--"); [by left|].
    right. by eexists. }
  induction n as [|n IH]; intros argv v seen namespace seen' Hlen.
  { destruct argv; [|simpl in Hlen; lia]. intros [= <- _]. by exists v. }
  destruct argv as [|arg_string rest]; [intros [= <- _]; by exists v|].
  simpl in Hlen. apply le_S_n in Hlen.
  unfold flag_given. cbn [argparse.consume existsb]. unfold selects_option at 1.
  destruct (String.eqb arg_string "--"); [done|].
  destruct (argparse.parse_optional main_parser arg_string)
    as [| [[|a]|] [explicit_arg|] |] eqn:Hopt; try done.
  - destruct (Hvalue a explicit_arg (main_parser_store _ _ _ Hopt)) as [-> Hv].
    rewrite insert_singleton_eq. intros Hrest.
    apply IH in Hrest as (v' & -> & Hrest); [|done]. exists v'.
    split; [done|]. simpl.
    destruct (flag_given rest); [done|]. by rewrite Hrest.
  - destruct (Hvalue a "" (main_parser_store _ _ _ Hopt)) as [Hdest _].
    destruct rest as [|value rest]; [done|].
    destruct (Hvalue a value (main_parser_store _ _ _ Hopt)) as [_ Hv].
    rewrite Hdest.
    destruct (String.eqb value "--"); [done|].
    destruct (argparse.parse_optional main_parser value); try done.
    rewrite insert_singleton_eq. intros Hrest.
    apply IH in Hrest as (v' & -> & Hrest); [|simpl in Hlen; lia]. exists v'.
    split; [done|]. simpl.
    destruct (flag_given rest); [done|]. by rewrite Hrest.
Qed.

(** A command line that has been consumed can be continued. *)
Lemma consume_app (parser : argparse.ArgumentParser) (n : nat) :
  forall (argv more : list string) (namespace namespace' : pydict)
         (seen seen' : list string),
    length argv <= n ->
    argparse.consume parser namespace seen argv = Some (namespace', seen') ->
    argparse.consume parser namespace seen (argv ++ more)
    = argparse.consume parser namespace' seen' more.
Proof.
  induction n as [|n IH]; intros argv more namespace namespace' seen seen' Hlen.
  { destruct argv; [|simpl in Hlen; lia]. by intros [= <- <-]. }
  destruct argv as [|arg_string rest]; [by intros [= <- <-]|].
  simpl in Hlen. apply le_S_n in Hlen.
  cbn [argparse.consume app].
  destruct (String.eqb arg_string "--"); [done|].
  destruct (argparse.parse_optional parser arg_string)
    as [| [[|a]|] [explicit_arg|] |]; try done.
  - by apply IH.
  - destruct rest as [|value rest]; [done|]. cbn [app].
    destruct (String.eqb value "--"); [done|].
    destruct (argparse.parse_optional parser value); try done.
    apply IH. simpl in Hlen. lia.
Qed.

(** A string that does not begin with a dash is an argument. *)
Lemma parse_optional_plain (parser : argparse.ArgumentParser) (value : string) :
  argparse.startswith value "-" = false ->
  argparse.parse_optional parser value = argparse.Arg /\
  String.eqb value "--" = false.
Proof.
  destruct value as [|c rest]; [done|]. intros Hdash.
  cbn [argparse.startswith] in Hdash.
  assert (Hempty : argparse.startswith rest "" = true) by (by destruct rest).
  rewrite Hempty in Hdash.
  rewrite andb_true_r, Ascii.eqb_sym in Hdash.
  unfold argparse.parse_optional. cbn [String.eqb].
  by rewrite Hdash.
Qed.

(** What [main] does once the command line is consumed. *)
Lemma main_consumed (argv : list string) (v : pyval) (seen : list string) :
  argparse.consume main_parser (argparse.defaults main_parser) [] argv
  = Some ({["readonly" := v]}, seen) ->
  main argv = Serving (Context.initialize v Context.uninitialized).
Proof.
  intros Hc. unfold main, argparse.parse_args. rewrite Hc.
  change (argparse.convert_defaults main_parser seen {["readonly" := v]})
    with ({["readonly" := v]} : pydict).
  by rewrite lookup_singleton_eq.
Qed.

(** A command line that [main] accepts can be continued from the
    namespace it has reached. *)
Lemma main_continued (argv : list string) (ctx : Context.t) :
  main argv = Serving ctx ->
  exists (v : pyval) (seen : list string),
    forall more : list string,
      argparse.consume main_parser (argparse.defaults main_parser) []
        (argv ++ more)
      = argparse.consume main_parser {["readonly" := v]} seen more.
Proof.
  unfold main, argparse.parse_args.
  destruct (argparse.consume main_parser _ [] argv)
    as [[namespace seen]|] eqn:Hc; [|done].
  intros _.
  pose proof Hc as Hns.
  change (argparse.defaults main_parser)
    with ({["readonly" := PBool false]} : pydict) in Hns.
  apply (consume_main (length argv)) in Hns as (v & -> & _); [|done].
  exists v, seen. intros more.
  by apply (consume_app _ (length argv)).
Qed.

(** The flag followed by its value, after an accepted command line. *)
Lemma main_then_readonly (argv : list string) (value : string)
    (ctx : Context.t) :
  main argv = Serving ctx ->
  main (argv ++ ["--readonly"; value])
  = if argparse.is_argument main_parser value
    then Serving (Context.initialize (PBool (negb (String.eqb value "")))
                    Context.uninitialized)
    else SystemExit.
Proof.
  intros (v & seen & Hmore)%main_continued.
  assert (Hstep :
    argparse.consume main_parser {["readonly" := v]} seen ["--readonly"; value]
    = if argparse.is_argument main_parser value
      then Some ({["readonly" := PBool (negb (String.eqb value ""))]},
                 "readonly" :: seen)
      else None).
  { cbn [argparse.consume].
    change (String.eqb "--readonly" "--") with false.
    change (argparse.parse_optional main_parser "--readonly")
      with (argparse.Opt
              (Some (argparse.StoreAction
                       {| argparse.option_string := "--readonly";
                          argparse.type := py_bool;
                          argparse.default_value := PBool false;
                          argparse.help := "Run in read-only mode" |})) None).
    cbn iota. unfold argparse.is_argument, argparse.get_values.
    destruct (String.eqb value "--"); [done|].
    destruct (argparse.parse_optional main_parser value); try done.
    change (argparse.dest _) with "readonly". cbn [argparse.type negb andb].
    rewrite insert_singleton_eq. by destruct value. }
  destruct (argparse.is_argument main_parser value).
  - apply (main_consumed _ _ ("readonly" :: seen)). by rewrite Hmore.
  - unfold main, argparse.parse_args. by rewrite Hmore, Hstep.
Qed.



(** ** Concrete invocations *)

(** The flag's value goes through [bool]: every non-empty string, the
    string [False] included, switches the read-only mode on, and only the
    empty string switches it off.  A negative number, in the digits of any
    script, is an argument; other strings that begin with a dash are not. *)
Example main_readonly_values :
  main ["--readonly"; "True"] = Serving (Some (PBool true)) /\
  main ["--readonly"; "False"] = Serving (Some (PBool true)) /\
  main ["--readonly"; ""] = Serving (Some (PBool false)) /\
  main ["--readonly=yes"] = Serving (Some (PBool true)) /\
  main ["--readonly=--"] = Serving (Some (PList [])) /\
  main ["--read"; "1"] = Serving (Some (PBool true)) /\
  main ["--readonly"; "-1"] = Serving (Some (PBool true)) /\
  main ["--readonly"; "-٣"] = Serving (Some (PBool true)) /\
  main ["--readonly"; "-x"] = SystemExit /\
  main ["--readonly"] = SystemExit /\
  main ["--help"] = SystemExit /\
  main ["--verbose"] = SystemExit /\
  main ["extra"] = SystemExit.
Proof. vm_compute. repeat split. Qed.

(** With a client at hand and no name, [describe_config_settings] has
    already sent a request to AWS when it raises: the statement that the
    validation error is raised without any outbound request fails. *)
Lemma missing_names_contact_aws :
  ~ (exists message,
       result (describe_config_settings "us-east-1" "mcp" plain_text ∅
                 (sdk_ok ∅) "shop" None None None)
       = Raised (ClientError message) /\
       api_calls (trace (describe_config_settings "us-east-1" "mcp" plain_text ∅
                           (sdk_ok ∅) "shop" None None None))
       = []).
Proof.
  intros (message & _ & Hcalls). vm_compute in Hcalls. discriminate Hcalls.
Qed.

(** The same invocation, effect by effect. *)
Example missing_names_run :
  run (describe_config_settings "us-east-1" "mcp" plain_text ∅ (sdk_ok ∅)
         "shop" None None None)
  = (Raised (ClientError "Either environment_name or template_name must be provided"),
     [SessionCreated "us-east-1";
      ClientCreated "elasticbeanstalk" "mcp";
      ApiCall "us-east-1" "describe_applications" ∅;
      CtxError "Either environment_name or template_name must be provided"]).
Proof. vm_compute. reflexivity. Qed.

(** An invocation with a region name that botocore rejects when the client
    is created never reaches AWS: the statement that every invocation
    contacts AWS during client construction fails. *)
Lemma invocation_without_contact :
  ~ (exists region operation params,
       ApiCall region operation params
       ∈ trace (describe_applications "us-east-1" "mcp" plain_text ∅
                  sdk_invalid_region None (Some "us east 1"))).
Proof.
  intros (region & operation & params & Hin).
  assert (Htrace :
    api_calls (trace (describe_applications "us-east-1" "mcp" plain_text ∅
                        sdk_invalid_region None (Some "us east 1"))) = [])
    by (vm_compute; reflexivity).
  assert (Hcall : ApiCall region operation params ∈ (@nil event)).
  { rewrite <- Htrace. apply list_elem_of_In, List.filter_In.
    split; [by apply list_elem_of_In|done]. }
  by apply elem_of_nil in Hcall.
Qed.

(** The same invocation, effect by effect. *)
Example invalid_region_run :
  run (describe_applications "us-east-1" "mcp" plain_text ∅
         sdk_invalid_region None (Some "us east 1"))
  = (Raised (ClientError "An error occurred. Please check your input and try again."),
     [SessionCreated "us east 1";
      ClientCreated "elasticbeanstalk" "mcp";
      LogError ("Error creating Elastic Beanstalk client: " ++
                "An error occurred. Please check your input and try again.")]).
Proof. vm_compute. reflexivity. Qed.

(** An exception of the SDK on the tool's own request reaches the caller as
    a [ClientError], and is logged. *)
Example throttled_request :
  run (call_tool "us-east-1" "mcp" plain_text ∅ sdk_throttled
         (DescribeEvents (Some "shop") None None None None (Some 10%Z) None None))
  = (Raised (ClientError "An error occurred. Please check your input and try again."),
     [SessionCreated "us-east-1";
      ClientCreated "elasticbeanstalk" "mcp";
      ApiCall "us-east-1" "describe_applications" ∅;
      ApiCall "us-east-1" "describe_events"
        (<["ApplicationName" := PStr "shop"]> {["MaxRecords" := PInt 10]});
      LogError "An error occurred. Please check your input and try again."]).
Proof. vm_compute. reflexivity. Qed.

(** Falsy arguments leave no key behind. *)
Example falsy_arguments_run :
  api_calls (trace (describe_environments "us-east-1" "mcp" plain_text
                      {["AWS_REGION" := "eu-west-1"]} (sdk_ok ∅)
                      (Some "") (Some []) (Some ["e-abc123"]) false (Some "")))
  = [ApiCall "eu-west-1" "describe_applications" ∅;
     ApiCall "eu-west-1" "describe_environments"
       {["EnvironmentIds" := PList [PStr "e-abc123"]]}].
Proof. vm_compute. reflexivity. Qed.

Lemma environment_name_preferred_witness :
  "prod" <> "" /\ "v1" <> "" /\
  performs "us-east-1" "mcp" plain_text ∅ (sdk_ok ∅)
    (DescribeConfigSettings "shop" (Some "prod") (Some "v1") None)
    (ApiCall "us-east-1" "describe_configuration_settings"
       (<["EnvironmentName" := PStr "prod"]> {["ApplicationName" := PStr "shop"]})) /\
  (<["EnvironmentName" := PStr "prod"]> {["ApplicationName" := PStr "shop"]} : pydict)
    !! "EnvironmentName" = Some (PStr "prod") /\
  (<["EnvironmentName" := PStr "prod"]> {["ApplicationName" := PStr "shop"]} : pydict)
    !! "TemplateName" = None.
Proof.
  assert (Hperforms :
    performs "us-east-1" "mcp" plain_text ∅ (sdk_ok ∅)
      (DescribeConfigSettings "shop" (Some "prod") (Some "v1") None)
      (ApiCall "us-east-1" "describe_configuration_settings"
         (<["EnvironmentName" := PStr "prod"]> {["ApplicationName" := PStr "shop"]}))).
  { left. apply list_elem_of_lookup. exists 3%nat. vm_compute. reflexivity. }
  split; [discriminate|]. split; [discriminate|]. split; [exact Hperforms|].
  apply (environment_name_preferred "us-east-1" "mcp" plain_text ∅ (sdk_ok ∅)
           "shop" "prod" "v1" None "us-east-1");
    [discriminate|discriminate|exact Hperforms].
Defined.

Lemma describe_applications_without_arguments_witness :
  new_session (sdk_ok sample_applications) "us-east-1" = None /\
  new_client (sdk_ok sample_applications) "us-east-1" "elasticbeanstalk" "mcp"
  = None /\
  answer (sdk_ok sample_applications)
    [SessionCreated "us-east-1"; ClientCreated "elasticbeanstalk" "mcp"]
    "us-east-1" "describe_applications" ∅ = inr sample_applications /\
  answer (sdk_ok sample_applications)
    [SessionCreated "us-east-1"; ClientCreated "elasticbeanstalk" "mcp";
     ApiCall "us-east-1" "describe_applications" ∅]
    "us-east-1" "describe_applications" ∅ = inr sample_applications /\
  run (describe_applications "us-east-1" "mcp" plain_text ∅
         (sdk_ok sample_applications) None None)
  = (Returned {["Applications" :=
                  PList [PDict [("ApplicationName", PStr "shop")];
                         PDict [("ApplicationName", PStr "blog")]]]},
     [SessionCreated "us-east-1";
      ClientCreated "elasticbeanstalk" "mcp";
      ApiCall "us-east-1" "describe_applications" ∅;
      ApiCall "us-east-1" "describe_applications" ∅]).
Proof.
  repeat (split; [reflexivity|]).
  refine (proj1 (describe_applications_without_arguments "us-east-1" "mcp"
                   plain_text ∅ (sdk_ok sample_applications)
                   sample_applications sample_applications _ _ _ _));
    reflexivity.
Defined.

Lemma describe_environments_result_witness :
  result (describe_environments "us-east-1" "mcp" plain_text ∅
            (sdk_ok sample_environments) (Some "shop") None None false None)
  = Returned {["Environments" := PList [PDict [("EnvironmentName", PStr "prod")]];
               "NextToken" := PNone]} /\
  dom ({["Environments" := PList [PDict [("EnvironmentName", PStr "prod")]];
         "NextToken" := PNone]} : pydict)
  = ({["Environments"; "NextToken"]} : gset string).
Proof.
  assert (Hresult :
    result (describe_environments "us-east-1" "mcp" plain_text ∅
              (sdk_ok sample_environments) (Some "shop") None None false None)
    = Returned {["Environments" := PList [PDict [("EnvironmentName", PStr "prod")]];
                 "NextToken" := PNone]})
    by (vm_compute; reflexivity).
  split; [exact Hresult|].
  exact (proj1 (describe_environments_result "us-east-1" "mcp" plain_text ∅
                  (sdk_ok sample_environments) (Some "shop") None None false
                  None _ Hresult)).
Defined.

(** ** Further properties of the command line *)

(** X8: [--readonly VALUE] at the end of a command line that [main]
    accepts decides the read-only mode, whatever came before it, and the
    mode is [bool(VALUE)]: any non-empty [VALUE] that does not begin with
    a dash switches it on (the words [False] and [0] included), and only
    the empty string switches it off. *)
Theorem last_readonly_wins (argv : list string) (value : string)
    (ctx : Context.t) :
  main argv = Serving ctx ->
  argparse.startswith value "-" = false ->
  main (argv ++ ["--readonly"; value])
  = Serving (Context.initialize (PBool (truthy value)) Context.uninitialized).
Proof.
  intros Hmain Hvalue.
  destruct (parse_optional_plain main_parser value Hvalue) as [Harg Hsep].
  rewrite (main_then_readonly _ _ ctx Hmain).
  unfold argparse.is_argument. rewrite Harg, Hsep. cbn [negb andb].
  by destruct value.
Qed.

(** With [-h] or [--help] the command line is never consumed. *)
Lemma consume_help (n : nat) :
  forall (argv : list string) (namespace : pydict) (seen : list string),
    length argv <= n ->
    In "-h" argv \/ In "--help" argv ->
    argparse.consume main_parser namespace seen argv = None.
Proof.
  induction n as [|n IH]; intros argv namespace seen Hlen Hhelp.
  { destruct argv; [|simpl in Hlen; lia]. by destruct Hhelp. }
  destruct argv as [|arg_string rest]; [by destruct Hhelp|].
  simpl in Hlen. apply le_S_n in Hlen.
  assert (Hhead : arg_string = "-h" \/ arg_string = "--help" \/
                  In "-h" rest \/ In "--help" rest)
    by (simpl in Hhelp; tauto).
  destruct Hhead as [-> | [-> | Hrest]]; [reflexivity|reflexivity|].
  cbn [argparse.consume].
  destruct (String.eqb arg_string "--"); [done|].
  destruct (argparse.parse_optional main_parser arg_string)
    as [| [[|a]|] [explicit_arg|] |]; try done.
  - by apply IH.
  - destruct rest as [|value rest]; [by destruct Hrest|].
    assert (Hvalue : value = "-h" \/ value = "--help" \/
                     In "-h" rest \/ In "--help" rest)
      by (simpl in Hrest; tauto).
    destruct Hvalue as [-> | [-> | Hrest']]; [reflexivity|reflexivity|].
    destruct (String.eqb value "--"); [done|].
    destruct (argparse.parse_optional main_parser value); try done.
    apply IH; [simpl in Hlen; lia|done].
Qed.

(** X9: a command line that contains [-h] or [--help], at any place,
    never starts the server and never initializes the context: [main]
    ends in [SystemExit]. *)
Theorem help_never_serves (argv : list string) :
  In "-h" argv \/ In "--help" argv -> main argv = SystemExit.
Proof.
  intros Hhelp. unfold main, argparse.parse_args.
  by rewrite (consume_help (length argv)).
Qed.

Lemma tool_result_shape_witness :
  result (tool_function "us-east-1" "mcp" plain_text ∅ (sdk_ok sample_events)
            (DescribeEvents (Some "shop") None None None None (Some 5%Z) None None))
  = Returned {["Events" := PList [PDict [("Message", PStr "Environment health is Ok")]];
               "NextToken" := PStr "page-2"]} /\
  exists history region params response,
    trace (tool_function "us-east-1" "mcp" plain_text ∅ (sdk_ok sample_events)
             (DescribeEvents (Some "shop") None None None None (Some 5%Z) None None))
    = (history ++ [ApiCall region "describe_events" params])%list /\
    answer (sdk_ok sample_events) history region "describe_events" params
    = inr response /\
    ({["Events" := PList [PDict [("Message", PStr "Environment health is Ok")]];
       "NextToken" := PStr "page-2"]} : pydict)
    = {["Events" := default (PList []) (response !! "Events");
        "NextToken" := default PNone (response !! "NextToken")]}.
Proof.
  assert (Hresult :
    result (tool_function "us-east-1" "mcp" plain_text ∅ (sdk_ok sample_events)
              (DescribeEvents (Some "shop") None None None None (Some 5%Z) None None))
    = Returned {["Events" := PList [PDict [("Message", PStr "Environment health is Ok")]];
                 "NextToken" := PStr "page-2"]})
    by (vm_compute; reflexivity).
  split; [exact Hresult|].
  exact (tool_result_shape "us-east-1" "mcp" plain_text ∅ (sdk_ok sample_events)
           (DescribeEvents (Some "shop") None None None None (Some 5%Z) None None)
           _ Hresult).
Defined.

Lemma returned_trace_witness :
  result (tool_function "us-east-1" "mcp" plain_text ∅ (sdk_ok sample_applications)
            (DescribeApplications (Some ["shop"]) (Some "eu-west-1")))
  = Returned sample_applications /\
  (exists params,
     trace (tool_function "us-east-1" "mcp" plain_text ∅
              (sdk_ok sample_applications)
              (DescribeApplications (Some ["shop"]) (Some "eu-west-1")))
     = [SessionCreated "eu-west-1";
        ClientCreated "elasticbeanstalk" "mcp";
        ApiCall "eu-west-1" "describe_applications" ∅;
        ApiCall "eu-west-1" "describe_applications" params]) /\
  run (call_tool "us-east-1" "mcp" plain_text ∅ (sdk_ok sample_applications)
         (DescribeApplications (Some ["shop"]) (Some "eu-west-1")))
  = run (tool_function "us-east-1" "mcp" plain_text ∅ (sdk_ok sample_applications)
           (DescribeApplications (Some ["shop"]) (Some "eu-west-1"))).
Proof.
  assert (Hresult :
    result (tool_function "us-east-1" "mcp" plain_text ∅
              (sdk_ok sample_applications)
              (DescribeApplications (Some ["shop"]) (Some "eu-west-1")))
    = Returned sample_applications)
    by (vm_compute; reflexivity).
  split; [exact Hresult|].
  exact (returned_trace "us-east-1" "mcp" plain_text ∅ (sdk_ok sample_applications)
           (DescribeApplications (Some ["shop"]) (Some "eu-west-1")) _ Hresult).
Defined.

Lemma own_request_params_witness :
  trace (tool_function "us-east-1" "mcp" plain_text ∅ (sdk_ok ∅)
           (DescribeConfigSettings "shop" (Some "") (Some "v1") None)) !! 3%nat
  = Some (ApiCall "us-east-1" "describe_configuration_settings"
            (<["TemplateName" := PStr "v1"]> {["ApplicationName" := PStr "shop"]})) /\
  Forall (fun entry : string * option pyval =>
            (<["TemplateName" := PStr "v1"]> {["ApplicationName" := PStr "shop"]}
               : pydict) !! entry.1 = entry.2)
    [("ApplicationName", Some (PStr "shop"));
     ("EnvironmentName", None);
     ("TemplateName", Some (PStr "v1"))].
Proof.
  assert (Hrequest :
    trace (tool_function "us-east-1" "mcp" plain_text ∅ (sdk_ok ∅)
             (DescribeConfigSettings "shop" (Some "") (Some "v1") None)) !! 3%nat
    = Some (ApiCall "us-east-1" "describe_configuration_settings"
              (<["TemplateName" := PStr "v1"]> {["ApplicationName" := PStr "shop"]})))
    by (vm_compute; reflexivity).
  split; [exact Hrequest|].
  exact (proj1 (proj2 (proj2
    (own_request_params "us-east-1" "mcp" plain_text ∅ (sdk_ok ∅)
       (DescribeConfigSettings "shop" (Some "") (Some "v1") None)
       _ _ _ Hrequest)))).
Defined.

Lemma last_readonly_wins_witness :
  main ["--readonly"; ""] = Serving (Some (PBool false)) /\
  argparse.startswith "False" "-" = false /\
  main ["--readonly"; ""; "--readonly"; "False"] = Serving (Some (PBool true)).
Proof.
  assert (Hmain : main ["--readonly"; ""] = Serving (Some (PBool false)))
    by (vm_compute; reflexivity).
  split; [exact Hmain|]. split; [reflexivity|].
  exact (last_readonly_wins ["--readonly"; ""] "False" _ Hmain eq_refl).
Defined.

Lemma help_never_serves_witness :
  In "--help" ["--readonly"; "yes"; "--help"] /\
  main ["--readonly"; "yes"; "--help"] = SystemExit.
Proof.
  assert (Hhelp : In "--help" ["--readonly"; "yes"; "--help"])
    by (simpl; tauto).
  split; [exact Hhelp|].
  apply help_never_serves. right. exact Hhelp.
Defined.
